(** * HttpsRequest: the blocking HTTPS request/response cycle

    A shallow embedding of [mbed-http/source/https_request.h].  The class
    talks to three things it does not own: the mbed TLS session, the TCP
    socket under it and the streaming HTTP response parser.  What they answer
    during one call of [send] is gathered in a record [Env]; the object
    itself is the record [HttpsRequest], threaded through the calls.

    Diagnostic output ([mbedtls_printf], [print_mbedtls_error]) and the
    [malloc]/[free] pairs are not part of the model. *)

From Stdlib Require Import ZArith List Bool Lia.
From Stdlib Require String.
From Equations Require Import Equations.
From Equations.Prop Require Import Logic.
Import ListNotations.

Open Scope Z_scope.

(** ** Data *)

Definition byte : Type := Byte.byte.

(** The two characters of the literal written after the body, carriage
    return and line feed. *)
Definition CRLF : list byte := [Byte.x0d; Byte.x0a].

(** [TCPSocket], as far as [send] can tell: never connected, connected,
    or closed by [close()]. *)
Inductive socket_state : Type :=
| SockIdle
| SockConnected
| SockClosed.

(** [HttpResponse] is filled by the parser only; the model keeps what the
    parser was given ([parser.execute]) and whether [parser.finish()] ran. *)
Record HttpResponse : Type := mkResponse {
  fed : list (list byte);
  finished : bool
}.

Definition empty_response : HttpResponse := mkResponse [] false.

(** The object.  [ssl_out] and [nul_stores] are history, not fields of the
    class: every buffer handed to [mbedtls_ssl_write], oldest first, and the
    index of every store [recv_buffer[_bpos] = 0], oldest first. *)
Record HttpsRequest : Type := mkRequest {
  _tcpsocket : socket_state;
  _response : option HttpResponse;
  _error : Z;
  ssl_out : list (list byte);
  nul_stores : list Z
}.

(** What the surroundings answer during one call of [send].  A call of
    [mbedtls_ssl_write] is numbered by how many buffers the object has
    written before it (the length of [ssl_out]); an iteration of the read
    loop by its position in the loop, from 0. *)
Record Env : Type := mkEnv {
  mbedtls_ctr_drbg_seed : Z;
  mbedtls_x509_crt_parse : Z;
  mbedtls_ssl_config_defaults : Z;
  mbedtls_ssl_setup : Z;
  tcp_connect : Z;
  mbedtls_ssl_handshake : Z;
  (** [_request_builder->build(body, body_size, request_size)] *)
  build : list byte -> list byte;
  (** call number, buffer -> return value *)
  mbedtls_ssl_write : nat -> list byte -> Z;
  (** iteration -> return value and the bytes put in [recv_buffer] *)
  mbedtls_ssl_read : nat -> Z * list byte;
  (** iteration, buffer, length -> [nparsed] *)
  parser_execute : nat -> list byte -> Z -> Z
}.

(** How a call of [send] ends; [OutOfFuel] stands for a read loop that is
    still running after the allotted number of iterations. *)
Inductive outcome : Type :=
| OutOfFuel
| Return (r : option HttpResponse).

(** How the read loop of [send] is left: by [return NULL] inside it, or
    past its end with the last value of [ret]; [LoopStuck] when the allotted
    iterations are used up. *)
Inductive loop_exit : Type :=
| LoopStuck (st : HttpsRequest)
| LoopReturn (st : HttpsRequest)
| LoopDone (ret : Z) (st : HttpsRequest).

(** Constants of headers that are not part of this class:
    [HTTP_RECEIVE_BUFFER_SIZE] (http_request.h), the two mbed TLS codes
    (mbedtls/ssl.h) and the two socket codes (nsapi_types.h). *)
Class Platform : Type := mkPlatform {
  HTTP_RECEIVE_BUFFER_SIZE : Z;
  MBEDTLS_ERR_SSL_WANT_READ : Z;
  MBEDTLS_ERR_SSL_WANT_WRITE : Z;
  NSAPI_ERROR_OK : Z;
  NSAPI_ERROR_WOULD_BLOCK : Z
}.

(** ** Field updates *)

Definition set_error (st : HttpsRequest) (e : Z) : HttpsRequest :=
  mkRequest (_tcpsocket st) (_response st) e (ssl_out st) (nul_stores st).

Definition set_socket (st : HttpsRequest) (s : socket_state) : HttpsRequest :=
  mkRequest s (_response st) (_error st) (ssl_out st) (nul_stores st).

Definition set_response (st : HttpsRequest) (r : option HttpResponse)
  : HttpsRequest :=
  mkRequest (_tcpsocket st) r (_error st) (ssl_out st) (nul_stores st).

Definition log_write (st : HttpsRequest) (buf : list byte) : HttpsRequest :=
  mkRequest (_tcpsocket st) (_response st) (_error st)
            (ssl_out st ++ [buf]) (nul_stores st).

Definition log_store (st : HttpsRequest) (idx : Z) : HttpsRequest :=
  mkRequest (_tcpsocket st) (_response st) (_error st)
            (ssl_out st) (nul_stores st ++ [idx]).

(** ** 32-bit conversions *)

(** [size_t] to [int], as [return len] in [ssl_send] does it. *)
Definition int_of_size_t (n : Z) : Z :=
  let m := n mod 2 ^ 32 in
  if m <? 2 ^ 31 then m else m - 2 ^ 32.

(** ** The small methods *)

(** [get_error] *)
Definition get_error (st : HttpsRequest) : Z := _error st.

(** [close] *)
Definition close (st : HttpsRequest) : HttpsRequest :=
  set_socket st SockClosed.

(** [onError(s, error)]: [s->close(); _error = error;] *)
Definition onError (st : HttpsRequest) (error : Z) : HttpsRequest :=
  set_error (set_socket st SockClosed) error.

(** A call [mbedtls_ssl_write(&_ssl, buf, len)]: the answer and the
    object with the buffer added to its history. *)
Definition ssl_write (env : Env) (buf : list byte) (st : HttpsRequest)
  : Z * HttpsRequest :=
  (mbedtls_ssl_write env (length (ssl_out st)) buf, log_write st buf).

(** [parser.execute] and [parser.finish] write through the parser's
    pointer to [_response]. *)
Definition parser_feed (st : HttpsRequest) (data : list byte)
  : HttpsRequest :=
  match _response st with
  | Some r => set_response st (Some (mkResponse (fed r ++ [data]) (finished r)))
  | None => st
  end.

Definition parser_finish (st : HttpsRequest) : HttpsRequest :=
  match _response st with
  | Some r => set_response st (Some (mkResponse (fed r) true))
  | None => st
  end.

(** [body_size < 4000 ? body_size : 4000], with [body_size] the number of
    bytes left in [send_buf]. *)
Definition send_size (send_buf : list byte) : Z :=
  let body_size := Z.of_nat (length send_buf) in
  if body_size <? 4000 then body_size else 4000.

Section Model.

Context {P : Platform}.

(** [ret != MBEDTLS_ERR_SSL_WANT_READ && ret != MBEDTLS_ERR_SSL_WANT_WRITE] *)
Definition not_want (ret : Z) : bool :=
  negb (ret =? MBEDTLS_ERR_SSL_WANT_READ)
  && negb (ret =? MBEDTLS_ERR_SSL_WANT_WRITE).

(** [check_mbedtls_ssl_write(ret)] *)
Definition check_mbedtls_ssl_write (ret : Z) (st : HttpsRequest)
  : bool * HttpsRequest :=
  if ret <? 0 then
    if not_want ret then (true, onError st (-1))
    else (true, set_error st ret)
  else (false, st).

(** [ssl_recv]: [recv] is what [socket->recv(buf, len)] answered. *)
Definition ssl_recv (recv : Z) : Z :=
  if NSAPI_ERROR_WOULD_BLOCK =? recv then MBEDTLS_ERR_SSL_WANT_READ
  else if recv <? 0 then -1
  else recv.

(** [ssl_send]: [size] is what [socket->send(buf, len)] answered. *)
Definition ssl_send (size : Z) (len : Z) : Z :=
  if NSAPI_ERROR_WOULD_BLOCK =? size then int_of_size_t len
  else if size <? 0 then -1
  else size.

(** [recv_buffer] has [HTTP_RECEIVE_BUFFER_SIZE] bytes (line 248): the
    indexes a store may use. *)
Definition in_recv_buffer (idx : Z) : bool :=
  (0 <=? idx) && (idx <? HTTP_RECEIVE_BUFFER_SIZE).

(** ** [send] *)

(** The body loop, lines 207-217.  [send_buf] holds the [body_size] bytes
    not yet written and [ret] is the local of that name.  [None] is the
    [return NULL] inside the loop. *)
Equations? send_body (env : Env) (send_buf : list byte) (ret : Z)
           (st : HttpsRequest) : HttpsRequest * option Z
  by wf (length send_buf) lt :=
  send_body env send_buf ret st
    with inspect (0 <? Z.of_nat (length send_buf)) := {
    | exist _ false _ := (st, Some ret)
    | exist _ true Hgt :=
        let written :=
          ssl_write env (firstn (Z.to_nat (send_size send_buf)) send_buf) st in
        let send_buf' := skipn (Z.to_nat (send_size send_buf)) send_buf in
        let checked := check_mbedtls_ssl_write (fst written) (snd written) in
        if fst checked then (snd checked, None)
        else send_body env send_buf' (fst written) (snd checked) }.
Proof.
  subst send_buf'. unfold send_size.
  rewrite length_skipn.
  apply Z.ltb_lt in Hgt.
  destruct (Z.of_nat (length send_buf) <? 4000); lia.
Qed.

(** The read loop, lines 251-268; [k] numbers the iteration.  The cast
    [static_cast<size_t>(ret)] is taken with [ret > 0] and changes
    nothing. *)
Fixpoint read_loop (fuel : nat) (env : Env) (k : nat) (st : HttpsRequest)
  : loop_exit :=
  match fuel with
  | O => LoopStuck st
  | S fuel' =>
      let (ret, data) := mbedtls_ssl_read env k in
      if 0 <? ret then
        let _bpos := ret in
        let st1 := log_store st _bpos in
        let nparsed := parser_execute env k data _bpos in
        let st2 := parser_feed st1 data in
        if negb (nparsed =? _bpos) then LoopReturn (set_error st2 (-2101))
        else if _bpos <? HTTP_RECEIVE_BUFFER_SIZE then LoopDone ret st2
        else read_loop fuel' env (S k) st2
      else LoopDone ret st
  end.

(** [send(body, body_size)]: [body] is the list of the [body_size] bytes
    at the pointer.  [fuel] bounds the iterations of the read loop.  The
    certificate report of lines 226-240 only prints. *)
Definition send (fuel : nat) (env : Env) (body : list byte)
           (st : HttpsRequest) : HttpsRequest * outcome :=
  let ret := mbedtls_ctr_drbg_seed env in
  if negb (ret =? 0) then (set_error st ret, Return None) else
  let ret := mbedtls_x509_crt_parse env in
  if negb (ret =? 0) then (set_error st ret, Return None) else
  let ret := mbedtls_ssl_config_defaults env in
  if negb (ret =? 0) then (set_error st ret, Return None) else
  let ret := mbedtls_ssl_setup env in
  if negb (ret =? 0) then (set_error st ret, Return None) else
  let ret := tcp_connect env in
  if negb (ret =? NSAPI_ERROR_OK) then (onError st (-1), Return None) else
  let st := set_socket st SockConnected in
  let ret := mbedtls_ssl_handshake env in
  if ret <? 0 then
    if not_want ret then (onError st (-1), Return None)
    else (set_error st ret, Return None)
  else
  let (ret, st) := ssl_write env (build env body) st in
  match check_mbedtls_ssl_write ret st with
  | (true, st) => (st, Return None)
  | (false, st) =>
  match send_body env body ret st with
  | (st, None) => (st, Return None)
  | (st, Some ret) =>
  let (_, st) := ssl_write env CRLF st in
  match check_mbedtls_ssl_write ret st with
  | (true, st) => (st, Return None)
  | (false, st) =>
  let st := set_response st (Some empty_response) in
  match read_loop fuel env 0 st with
  | LoopStuck st => (st, OutOfFuel)
  | LoopReturn st => (st, Return None)
  | LoopDone ret st =>
      if ret <? 0 then
        if not_want ret then (onError st (-1), Return None)
        else (set_error st ret, Return None)
      else
        let st := parser_finish st in
        let st := close st in
        (st, Return (_response st))
  end end end end.

End Model.

(** ** Vocabulary of the statements *)

(** The slices the body loop cuts [send_buf] into, in the order it writes
    them. *)
Equations? chunks_of (send_buf : list byte) : list (list byte)
  by wf (length send_buf) lt :=
  chunks_of send_buf
    with inspect (0 <? Z.of_nat (length send_buf)) := {
    | exist _ false _ := []
    | exist _ true Hgt :=
        firstn (Z.to_nat (send_size send_buf)) send_buf
        :: chunks_of (skipn (Z.to_nat (send_size send_buf)) send_buf) }.
Proof.
  unfold send_size.
  rewrite length_skipn.
  apply Z.ltb_lt in Hgt.
  destruct (Z.of_nat (length send_buf) <? 4000); lia.
Qed.

(** The object after the buffers [bufs] were written. *)
Definition log_writes (st : HttpsRequest) (bufs : list (list byte))
  : HttpsRequest :=
  mkRequest (_tcpsocket st) (_response st) (_error st)
            (ssl_out st ++ bufs) (nul_stores st).

(** The bytes of iterations [k], ..., [k + n - 1] of the read loop. *)
Definition read_data (env : Env) (k n : nat) : list (list byte) :=
  map (fun j => snd (mbedtls_ssl_read env j)) (seq k n).

(** The object after iterations that handed [ds] to the parser and stored
    a terminator at each index of [stores]. *)
Definition after_reads (st : HttpsRequest) (r : HttpResponse)
           (ds : list (list byte)) (stores : list Z) : HttpsRequest :=
  mkRequest (_tcpsocket st)
            (Some (mkResponse (fed r ++ ds) (finished r)))
            (_error st) (ssl_out st) (nul_stores st ++ stores).

Definition loop_state (l : loop_exit) : HttpsRequest :=
  match l with
  | LoopStuck st | LoopReturn st | LoopDone _ st => st
  end.

(** The object when the read loop starts, all writes having gone
    through. *)
Definition transmitted (env : Env) (body : list byte) (st : HttpsRequest)
  : HttpsRequest :=
  set_response
    (log_writes (set_socket st SockConnected)
                (build env body :: chunks_of body ++ [CRLF]))
    (Some empty_response).

(** The surroundings [env], but with the write numbered [idx] answering
    [v]. *)
Definition with_write (env : Env) (idx : nat) (v : Z) : Env :=
  mkEnv (mbedtls_ctr_drbg_seed env) (mbedtls_x509_crt_parse env)
        (mbedtls_ssl_config_defaults env) (mbedtls_ssl_setup env)
        (tcp_connect env) (mbedtls_ssl_handshake env) (build env)
        (fun i buf => if Nat.eqb i idx then v else mbedtls_ssl_write env i buf)
        (mbedtls_ssl_read env) (parser_execute env).

(** The number of the write of line 219: after the request and one write
    per started block of 4000 body bytes. *)
Definition crlf_call (body : list byte) (st : HttpsRequest) : nat :=
  (length (ssl_out st) + 1
   + Z.to_nat ((Z.of_nat (length body) + 3999) / 4000))%nat.

(** The request and every slice of the body are written with success: the
    writes numbered below the one of line 219 answer no negative code. *)
Definition body_written (env : Env) (body : list byte) (st : HttpsRequest)
  : Prop :=
  forall i buf,
    (i < crlf_call body st)%nat -> 0 <= mbedtls_ssl_write env i buf.

Section Vocabulary.

Context {P : Platform}.

(** One write and its check per slice, stopping at the first check that
    fails. *)
Fixpoint write_chunks (env : Env) (cs : list (list byte)) (ret : Z)
         (st : HttpsRequest) : HttpsRequest * option Z :=
  match cs with
  | [] => (st, Some ret)
  | c :: cs' =>
      let written := ssl_write env c st in
      let checked := check_mbedtls_ssl_write (fst written) (snd written) in
      if fst checked then (snd checked, None)
      else write_chunks env cs' (fst written) (snd checked)
  end.

(** What a failed check leaves behind: [-1] and a closed socket, or a
    want-read/want-write code and the socket as it was. *)
Definition failed_from (st st' : HttpsRequest) : Prop :=
  (_error st' = -1 /\ _tcpsocket st' = SockClosed)
  \/ ((_error st' = MBEDTLS_ERR_SSL_WANT_READ
       \/ _error st' = MBEDTLS_ERR_SSL_WANT_WRITE)
      /\ _tcpsocket st' = _tcpsocket st).

(** An iteration that fills the buffer and is parsed whole: the loop goes
    round again. *)
Definition full_read (env : Env) (k : nat) : Prop :=
  fst (mbedtls_ssl_read env k) = HTTP_RECEIVE_BUFFER_SIZE
  /\ parser_execute env k (snd (mbedtls_ssl_read env k))
                    HTTP_RECEIVE_BUFFER_SIZE
     = HTTP_RECEIVE_BUFFER_SIZE.

(** The five steps before the handshake all succeed. *)
Definition reaches_handshake (env : Env) : Prop :=
  mbedtls_ctr_drbg_seed env = 0
  /\ mbedtls_x509_crt_parse env = 0
  /\ mbedtls_ssl_config_defaults env = 0
  /\ mbedtls_ssl_setup env = 0
  /\ tcp_connect env = NSAPI_ERROR_OK.

(** Lines 243-286, from the object [send] has when it creates the
    response. *)
Definition receive (fuel : nat) (env : Env) (st : HttpsRequest)
  : HttpsRequest * outcome :=
  match read_loop fuel env 0 st with
  | LoopStuck st => (st, OutOfFuel)
  | LoopReturn st => (st, Return None)
  | LoopDone ret st =>
      if ret <? 0 then
        if not_want ret then (onError st (-1), Return None)
        else (set_error st ret, Return None)
      else
        let st := parser_finish st in
        let st := close st in
        (st, Return (_response st))
  end.

End Vocabulary.

(** ** A concrete platform and concrete surroundings *)

(** The values of mbed TLS ([-0x6900], [-0x6880]) and of mbed OS
    ([NSAPI_ERROR_OK = 0], [NSAPI_ERROR_WOULD_BLOCK = -3001]), with a
    receive buffer of 1 KiB. *)
Definition mbed : Platform := mkPlatform 1024 (-26880) (-26752) 0 (-3001).

(** A freshly constructed object; the constructor leaves [_error] unset,
    taken as 0 here. *)
Definition fresh : HttpsRequest := mkRequest SockIdle None 0 [] [].

Definition short_reply : list byte :=
  [Byte.x48; Byte.x54; Byte.x54; Byte.x50; Byte.x2f].

(** Everything succeeds; the reply is five bytes, parsed whole. *)
Definition quiet_env : Env :=
  mkEnv 0 0 0 0 0 0 (fun body => Byte.x47 :: body)
        (fun _ buf => Z.of_nat (length buf))
        (fun _ => (5, short_reply))
        (fun _ _ n => n).

(** As [quiet_env], but the handshake answers [ret]. *)
Definition handshake_env (ret : Z) : Env :=
  mkEnv 0 0 0 0 0 ret (fun body => Byte.x47 :: body)
        (fun _ buf => Z.of_nat (length buf))
        (fun _ => (5, short_reply))
        (fun _ _ n => n).

(** As [quiet_env], but the parser stops one byte short. *)
Definition desync_env : Env :=
  mkEnv 0 0 0 0 0 0 (fun body => Byte.x47 :: body)
        (fun _ buf => Z.of_nat (length buf))
        (fun _ => (5, short_reply))
        (fun _ _ n => n - 1).

(** As [quiet_env], but the reply fills the buffer once and then ends
    with [last]. *)
Definition full_then (last : Z) : Env :=
  mkEnv 0 0 0 0 0 0 (fun body => Byte.x47 :: body)
        (fun _ buf => Z.of_nat (length buf))
        (fun k => match k with
                  | O => (1024, repeat Byte.x41 1024)
                  | S _ => (last, [])
                  end)
        (fun _ _ n => n).

Definition big_body : list byte := repeat Byte.x00 (Z.to_nat 9001).

(** As [quiet_env], but the reply never stops filling the buffer. *)
Definition endless_env : Env :=
  mkEnv 0 0 0 0 0 0 (fun body => Byte.x47 :: body)
        (fun _ buf => Z.of_nat (length buf))
        (fun _ => (1024, repeat Byte.x41 1024))
        (fun _ _ n => n).

(** ** C strings *)

(** The characters a [char *] at the head of [s] denotes: those before the
    first zero byte. *)
Fixpoint c_str (s : list byte) : list byte :=
  match s with
  | [] => []
  | c :: s' => if Byte.eqb c Byte.x00 then [] else c :: c_str s'
  end.

(** ** [my_debug]: the file name without its directories *)

(** [*p == '/' || *p == '\\'] *)
Definition is_separator (c : byte) : bool :=
  Byte.eqb c Byte.x2f || Byte.eqb c Byte.x5c.

(** The loop of lines 364-368: [p] runs over the string, [basename] is
    the pointer of that name, kept as the bytes from it on. *)
Fixpoint basename_loop (p basename : list byte) : list byte :=
  match p with
  | [] => basename
  | c :: p' =>
      if Byte.eqb c Byte.x00 then basename
      else if is_separator c then basename_loop p' p'
      else basename_loop p' basename
  end.

(** What [my_debug] prints for [basename], given [file]. *)
Definition my_debug_basename (file : list byte) : list byte :=
  c_str (basename_loop file file).

(** A string that is empty or ends with a slash or backslash. *)
Definition ends_with_separator (dirs : list byte) : Prop :=
  dirs = [] \/ exists d c, dirs = d ++ [c] /\ is_separator c = true.

(** ** SpeechInterface.cpp *)

(** [setupRealTime], lines 165-173: [setTime k] is what the [k]-th call
    [ntp.setTime("0.pool.ntp.org")] answers, [fuel] bounds the turns of
    the loop. *)
Fixpoint setupRealTime (fuel : nat) (setTime : nat -> Z) (k : nat)
  : option Z :=
  match fuel with
  | O => None
  | S fuel' =>
      let result := setTime k in
      if negb (result =? 0) then setupRealTime fuel' setTime (S k)
      else Some result
  end.

(** [generateGuidStr], lines 63-83.  [guidStr_null] says whether the
    pointer is NULL; [reply] is what [guidRequest->send()] gave, NULL or a
    response with that body.  The result is the return value, the bytes
    [strcpy] stored from [guidStr[0]] on, and the new [_response]. *)
Definition generateGuidStr (guidStr_null : bool)
           (reply : option (list byte)) (_response0 : option (list byte))
  : Z * list byte * option (list byte) :=
  if guidStr_null then (-1, [], _response0)
  else
    match reply with
    | None => (-1, [], None)
    | Some body =>
        let guidStr := c_str body ++ [Byte.x00] in
        (int_of_size_t (Z.of_nat (length (c_str guidStr))), guidStr,
         Some body)
    end.

(** [SPEECH_RECOGNITION_API_REQUEST_URL], lines 14-18, up to the first
    and between the two [%s]. *)
Module SpeechUrl.
Import String.

Definition HEAD : list byte :=
  list_byte_of_string
    "https://speech.platform.bing.com/recognize?scenarios=smd&appid=D4D52672-91D7-4C74-8AD8-42B1D98141A5&locale=en-us&device.os=bot&form=BCSSTT&version=3.0&format=json&instanceid=".

Definition MID : list byte := list_byte_of_string "&requestid=".

End SpeechUrl.

(** The bytes the [sprintf] of line 113 stores in [_requestUri]. *)
Definition recognizeSpeech_uri (_deviceId guid : list byte) : list byte :=
  SpeechUrl.HEAD ++ c_str _deviceId ++ SpeechUrl.MID ++ c_str guid
  ++ [Byte.x00].

(** The sizes of two buffers: [_requestUri], 300 bytes by the [malloc] of
    line 38, and [guid], 33 bytes by the one of line 106. *)
Definition REQUEST_URI_BYTES : Z := 300.
Definition GUID_BUFFER_BYTES : Z := 33.

(** A reply of [GUID_SIZE] (36) characters, and a device id of as many. *)
Definition guid_reply : list byte := repeat Byte.x61 36.

(** * Properties *)

(** ** The body loop as a walk over slices *)

Lemma send_size_bounds send_buf :
  0 < Z.of_nat (length send_buf) ->
  0 < send_size send_buf <= 4000
  /\ send_size send_buf <= Z.of_nat (length send_buf).
Proof.
  intros Hpos. unfold send_size.
  destruct (Z.of_nat (length send_buf) <? 4000) eqn:E;
    [apply Z.ltb_lt in E | apply Z.ltb_ge in E]; lia.
Qed.

Lemma chunks_of_eq send_buf :
  chunks_of send_buf =
  if 0 <? Z.of_nat (length send_buf) then
    firstn (Z.to_nat (send_size send_buf)) send_buf
    :: chunks_of (skipn (Z.to_nat (send_size send_buf)) send_buf)
  else [].
Proof.
  funelim (chunks_of send_buf).
  - clear H. rewrite Hgt. reflexivity.
  - match goal with E : (0 <? _) = false |- _ => rewrite E end. reflexivity.
Qed.

(** Induction on the number of bytes left to send. *)
Lemma send_buf_ind (Q : list byte -> Prop) :
  (forall send_buf,
      (forall rest, (length rest < length send_buf)%nat -> Q rest) ->
      Q send_buf) ->
  forall send_buf, Q send_buf.
Proof.
  intros step send_buf.
  remember (length send_buf) as n eqn:En.
  revert send_buf En.
  induction n as [n IH] using lt_wf_ind.
  intros send_buf En. apply step. intros rest Hlt.
  apply (IH (length rest)); [lia | reflexivity].
Qed.

Lemma skipn_send_size_shorter send_buf :
  0 < Z.of_nat (length send_buf) ->
  (length (skipn (Z.to_nat (send_size send_buf)) send_buf)
   < length send_buf)%nat.
Proof.
  intros Hpos. rewrite length_skipn.
  pose proof (send_size_bounds send_buf Hpos). lia.
Qed.

Lemma concat_chunks_of send_buf : concat (chunks_of send_buf) = send_buf.
Proof.
  induction send_buf as [send_buf IH] using send_buf_ind.
  rewrite chunks_of_eq.
  destruct (0 <? Z.of_nat (length send_buf)) eqn:Hgt.
  - apply Z.ltb_lt in Hgt. cbn [concat].
    rewrite IH by (apply skipn_send_size_shorter, Hgt).
    apply firstn_skipn.
  - apply Z.ltb_ge in Hgt. destruct send_buf; [reflexivity |].
    cbn [length] in Hgt. lia.
Qed.

Lemma chunks_of_bounded send_buf :
  Forall (fun c => 0 < Z.of_nat (length c) <= 4000) (chunks_of send_buf).
Proof.
  induction send_buf as [send_buf IH] using send_buf_ind.
  rewrite chunks_of_eq.
  destruct (0 <? Z.of_nat (length send_buf)) eqn:Hgt; [| constructor].
  apply Z.ltb_lt in Hgt. constructor.
  - rewrite length_firstn.
    pose proof (send_size_bounds send_buf Hgt). lia.
  - apply IH, skipn_send_size_shorter, Hgt.
Qed.

(** The number of slices: the body size over 4000, rounded up. *)
Lemma length_chunks_of send_buf :
  Z.of_nat (length (chunks_of send_buf))
  = (Z.of_nat (length send_buf) + 3999) / 4000.
Proof.
  induction send_buf as [send_buf IH] using send_buf_ind.
  rewrite chunks_of_eq.
  destruct (0 <? Z.of_nat (length send_buf)) eqn:Hgt.
  - apply Z.ltb_lt in Hgt. cbn [length].
    rewrite Nat2Z.inj_succ, IH by (apply skipn_send_size_shorter, Hgt).
    rewrite length_skipn. unfold send_size.
    destruct (Z.of_nat (length send_buf) <? 4000) eqn:E;
      [apply Z.ltb_lt in E | apply Z.ltb_ge in E].
    + replace (length send_buf - Z.to_nat (Z.of_nat (length send_buf)))%nat
        with 0%nat by lia.
      change (Z.of_nat 0) with 0.
      Z.div_mod_to_equations. lia.
    + replace (Z.of_nat (length send_buf - Z.to_nat 4000))
        with (Z.of_nat (length send_buf) - 4000) by lia.
      Z.div_mod_to_equations. lia.
  - apply Z.ltb_ge in Hgt.
    replace (Z.of_nat (length send_buf)) with 0 by lia.
    reflexivity.
Qed.

Lemma crlf_call_chunks body st :
  crlf_call body st
  = (length (ssl_out st) + 1 + length (chunks_of body))%nat.
Proof.
  unfold crlf_call. rewrite <- length_chunks_of, Nat2Z.id. reflexivity.
Qed.

Lemma log_writes_cons st c cs :
  log_writes (log_write st c) cs = log_writes st (c :: cs).
Proof.
  unfold log_writes, log_write. cbn. rewrite <- app_assoc. reflexivity.
Qed.

Lemma log_writes_nil st : log_writes st [] = st.
Proof.
  destruct st. unfold log_writes. cbn. rewrite app_nil_r. reflexivity.
Qed.

Lemma log_writes_snoc st cs c :
  log_write (log_writes st cs) c = log_writes st (cs ++ [c]).
Proof.
  unfold log_writes, log_write. cbn. rewrite <- app_assoc. reflexivity.
Qed.

Lemma after_reads_nil st r :
  _response st = Some r -> after_reads st r [] [] = st.
Proof.
  intros E. destruct st as [s resp e out ns]. cbn in E. subst resp.
  unfold after_reads. cbn. rewrite !app_nil_r. destruct r. reflexivity.
Qed.

Lemma parser_feed_after_reads st r ds stores idx data :
  parser_feed (log_store (after_reads st r ds stores) idx) data
  = after_reads st r (ds ++ [data]) (stores ++ [idx]).
Proof.
  unfold parser_feed, after_reads, set_response, log_store. cbn.
  rewrite <- !app_assoc. reflexivity.
Qed.

Lemma read_data_snoc env k n :
  read_data env k (S n)
  = read_data env k n ++ [snd (mbedtls_ssl_read env (k + n))].
Proof. unfold read_data. rewrite seq_S, map_app. reflexivity. Qed.

Lemma repeat_snoc (x : Z) n : repeat x (S n) = repeat x n ++ [x].
Proof.
  induction n as [| n IH]; [reflexivity |].
  cbn [repeat app] in *. rewrite <- IH. reflexivity.
Qed.

Lemma parser_feed_frame st data :
  ssl_out (parser_feed st data) = ssl_out st
  /\ _tcpsocket (parser_feed st data) = _tcpsocket st
  /\ _error (parser_feed st data) = _error st
  /\ nul_stores (parser_feed st data) = nul_stores st.
Proof.
  unfold parser_feed. destruct (_response st); repeat split.
Qed.

Lemma parser_feed_set_error st e data :
  parser_feed (set_error st e) data = set_error (parser_feed st data) e.
Proof. unfold parser_feed. cbn. destruct (_response st); reflexivity. Qed.

Section Properties.

Context {P : Platform}.

Hypothesis want_read_negative : MBEDTLS_ERR_SSL_WANT_READ < 0.
Hypothesis want_write_negative : MBEDTLS_ERR_SSL_WANT_WRITE < 0.
Hypothesis buffer_size_positive : 0 < HTTP_RECEIVE_BUFFER_SIZE.

Lemma send_body_eq env send_buf ret st :
  send_body env send_buf ret st =
  if 0 <? Z.of_nat (length send_buf) then
    let written :=
      ssl_write env (firstn (Z.to_nat (send_size send_buf)) send_buf) st in
    let checked := check_mbedtls_ssl_write (fst written) (snd written) in
    if fst checked then (snd checked, None)
    else send_body env (skipn (Z.to_nat (send_size send_buf)) send_buf)
                   (fst written) (snd checked)
  else (st, Some ret).
Proof.
  funelim (send_body env send_buf ret st).
  - clear H. rewrite Hgt. reflexivity.
  - match goal with E : (0 <? _) = false |- _ => rewrite E end. reflexivity.
Qed.

Lemma send_body_as_chunks env send_buf :
  forall ret st,
    send_body env send_buf ret st
    = write_chunks env (chunks_of send_buf) ret st.
Proof.
  induction send_buf as [send_buf IH] using send_buf_ind.
  intros ret st.
  rewrite send_body_eq, chunks_of_eq.
  destruct (0 <? Z.of_nat (length send_buf)) eqn:Hgt; [| reflexivity].
  apply Z.ltb_lt in Hgt.
  cbn [write_chunks]. cbv zeta.
  destruct (fst (check_mbedtls_ssl_write _ _)); [reflexivity |].
  apply IH, skipn_send_size_shorter, Hgt.
Qed.

(** ** The write check *)

Lemma check_pass ret st :
  0 <= ret -> check_mbedtls_ssl_write ret st = (false, st).
Proof.
  intros Hret. unfold check_mbedtls_ssl_write.
  destruct (Z.ltb_spec ret 0); [lia | reflexivity].
Qed.

Lemma check_false_inv ret st st' :
  check_mbedtls_ssl_write ret st = (false, st') -> 0 <= ret /\ st' = st.
Proof.
  unfold check_mbedtls_ssl_write.
  destruct (Z.ltb_spec ret 0); [destruct (not_want ret); discriminate |].
  intros E. injection E as <-. split; [assumption | reflexivity].
Qed.

Lemma not_want_false ret :
  not_want ret = false ->
  ret = MBEDTLS_ERR_SSL_WANT_READ \/ ret = MBEDTLS_ERR_SSL_WANT_WRITE.
Proof.
  unfold not_want.
  destruct (Z.eqb_spec ret MBEDTLS_ERR_SSL_WANT_READ); [left; assumption |].
  destruct (Z.eqb_spec ret MBEDTLS_ERR_SSL_WANT_WRITE);
    [right; assumption | discriminate].
Qed.

Lemma not_want_true ret :
  ret <> MBEDTLS_ERR_SSL_WANT_READ -> ret <> MBEDTLS_ERR_SSL_WANT_WRITE ->
  not_want ret = true.
Proof.
  intros Hr Hw. unfold not_want.
  destruct (Z.eqb_spec ret MBEDTLS_ERR_SSL_WANT_READ); [contradiction |].
  destruct (Z.eqb_spec ret MBEDTLS_ERR_SSL_WANT_WRITE); [contradiction |].
  reflexivity.
Qed.

Lemma check_true_inv ret st st' :
  check_mbedtls_ssl_write ret st = (true, st') ->
  ret < 0 /\ failed_from st st' /\ ssl_out st' = ssl_out st.
Proof.
  unfold check_mbedtls_ssl_write, failed_from.
  destruct (Z.ltb_spec ret 0); [| discriminate].
  destruct (not_want ret) eqn:W; intros E; injection E as <-.
  - repeat split; [assumption |]. left. split; reflexivity.
  - repeat split; [assumption |]. right. split; [| reflexivity].
    apply not_want_false in W. exact W.
Qed.

Lemma check_set_error ret st e :
  check_mbedtls_ssl_write ret (set_error st e)
  = if fst (check_mbedtls_ssl_write ret st)
    then check_mbedtls_ssl_write ret st
    else (false, set_error st e).
Proof.
  unfold check_mbedtls_ssl_write.
  destruct (ret <? 0); [| reflexivity].
  destruct (not_want ret); reflexivity.
Qed.

(** At the level of the TLS layer the policy is that of the handshake: a
    want-read or want-write answer is recorded and nothing is closed. *)
Lemma check_want ret st :
  ret = MBEDTLS_ERR_SSL_WANT_READ \/ ret = MBEDTLS_ERR_SSL_WANT_WRITE ->
  check_mbedtls_ssl_write ret st = (true, set_error st ret).
Proof.
  intros Hwant. unfold check_mbedtls_ssl_write.
  destruct (Z.ltb_spec ret 0); [| destruct Hwant; lia].
  assert (W : not_want ret = false).
  { unfold not_want. destruct Hwant as [-> | ->]; rewrite Z.eqb_refl;
      [reflexivity | apply andb_false_r]. }
  rewrite W. reflexivity.
Qed.

(** ** Facts about [write_chunks] *)

Lemma write_chunks_some env cs :
  forall ret st st' ret',
    write_chunks env cs ret st = (st', Some ret') ->
    st' = log_writes st cs /\ (0 <= ret -> 0 <= ret').
Proof.
  induction cs as [| c cs IH]; intros ret st st' ret' E; cbn in E.
  - injection E as <- <-. rewrite log_writes_nil. split; trivial.
  - destruct (check_mbedtls_ssl_write _ _) as [[] st1] eqn:C; cbn in E;
      [discriminate |].
    apply check_false_inv in C. destruct C as [Hret ->].
    apply IH in E. destruct E as [-> Hret'].
    rewrite log_writes_cons. split; [reflexivity | intros _; auto].
Qed.

Lemma write_chunks_ok env cs :
  forall ret st,
    (forall i buf,
        (i < length (ssl_out st) + length cs)%nat ->
        0 <= mbedtls_ssl_write env i buf) ->
    exists ret',
      write_chunks env cs ret st = (log_writes st cs, Some ret').
Proof.
  induction cs as [| c cs IH]; intros ret st Hok; cbn.
  - exists ret. rewrite log_writes_nil. reflexivity.
  - rewrite check_pass by (apply Hok; cbn; lia). cbn.
    destruct (IH (mbedtls_ssl_write env (length (ssl_out st)) c)
                 (log_write st c)) as [ret' E].
    { intros i buf Hi. apply Hok. cbn in Hi |- *.
      rewrite length_app in Hi. cbn in Hi. lia. }
    exists ret'. rewrite E, log_writes_cons. reflexivity.
Qed.

Lemma write_chunks_none env cs :
  forall ret st st',
    write_chunks env cs ret st = (st', None) ->
    failed_from st st'
    /\ exists n, ssl_out st' = ssl_out st ++ firstn n cs.
Proof.
  induction cs as [| c cs IH]; intros ret st st' E; cbn in E.
  - discriminate.
  - destruct (check_mbedtls_ssl_write _ _) as [[] st1] eqn:C; cbn in E.
    + injection E as <-. apply check_true_inv in C.
      destruct C as (_ & F & L).
      split; [exact F |]. exists 1%nat. rewrite L. reflexivity.
    + apply check_false_inv in C. destruct C as [_ ->].
      apply IH in E. destruct E as [F [n Hn]].
      split; [exact F |]. exists (S n). rewrite Hn. cbn.
      rewrite <- app_assoc. reflexivity.
Qed.

(** A failing walk overwrites [_error]; a walk that goes through leaves
    it alone. *)
Lemma write_chunks_set_error env cs e :
  forall ret st,
    write_chunks env cs ret (set_error st e)
    = match write_chunks env cs ret st with
      | (s, None) => (s, None)
      | (s, Some r) => (set_error s e, Some r)
      end.
Proof.
  induction cs as [| c cs IH]; intros ret st; cbn; [reflexivity |].
  change (log_write (set_error st e) c) with (set_error (log_write st c) e).
  rewrite check_set_error.
  destruct (check_mbedtls_ssl_write _ (log_write st c)) as [[] st1] eqn:C;
    cbn; [reflexivity |].
  apply check_false_inv in C. destruct C as [_ ->].
  apply IH.
Qed.

(** The walk asks the surroundings only about the calls it makes. *)
Lemma write_chunks_agree env env' cs :
  forall ret st,
    (forall i buf,
        (length (ssl_out st) <= i < length (ssl_out st) + length cs)%nat ->
        mbedtls_ssl_write env' i buf = mbedtls_ssl_write env i buf) ->
    write_chunks env' cs ret st = write_chunks env cs ret st.
Proof.
  induction cs as [| c cs IH]; intros ret st Hagree; cbn; [reflexivity |].
  rewrite Hagree by (cbn; lia).
  destruct (check_mbedtls_ssl_write _ _) as [[] st1] eqn:C; cbn;
    [reflexivity |].
  apply check_false_inv in C. destruct C as [_ ->].
  apply IH. intros i buf Hi. apply Hagree.
  cbn in Hi |- *. rewrite length_app in Hi. cbn in Hi. lia.
Qed.

(** ** Facts about the read loop *)

Lemma read_loop_frame fuel env :
  forall k st,
    ssl_out (loop_state (read_loop fuel env k st)) = ssl_out st
    /\ _tcpsocket (loop_state (read_loop fuel env k st)) = _tcpsocket st.
Proof.
  induction fuel as [| fuel IH]; intros k st; cbn; [split; reflexivity |].
  destruct (mbedtls_ssl_read env k) as [ret data].
  destruct (0 <? ret); [| split; reflexivity].
  destruct (parser_feed_frame (log_store st ret) data) as (L & T & _ & _).
  destruct (negb _); [cbn; split; assumption |].
  destruct (ret <? HTTP_RECEIVE_BUFFER_SIZE); [cbn; split; assumption |].
  destruct (IH (S k) (parser_feed (log_store st ret) data)) as [L' T'].
  split; [rewrite L'; exact L | rewrite T'; exact T].
Qed.

Lemma read_loop_return fuel env :
  forall k st st',
    read_loop fuel env k st = LoopReturn st' -> _error st' = -2101.
Proof.
  induction fuel as [| fuel IH]; intros k st st'; cbn; [discriminate |].
  destruct (mbedtls_ssl_read env k) as [ret data].
  destruct (0 <? ret); [| discriminate].
  destruct (negb _); [intros E; injection E as <-; reflexivity |].
  destruct (ret <? HTTP_RECEIVE_BUFFER_SIZE); [discriminate |].
  apply IH.
Qed.

Lemma read_loop_set_error fuel env e :
  forall k st,
    read_loop fuel env k (set_error st e)
    = match read_loop fuel env k st with
      | LoopStuck s => LoopStuck (set_error s e)
      | LoopReturn s => LoopReturn s
      | LoopDone r s => LoopDone r (set_error s e)
      end.
Proof.
  induction fuel as [| fuel IH]; intros k st; cbn; [reflexivity |].
  destruct (mbedtls_ssl_read env k) as [ret data].
  destruct (0 <? ret); [| reflexivity].
  change (log_store (set_error st e) ret)
    with (set_error (log_store st ret) e).
  rewrite parser_feed_set_error.
  destruct (negb _); [reflexivity |].
  destruct (ret <? HTTP_RECEIVE_BUFFER_SIZE); [reflexivity |].
  apply IH.
Qed.

(** The loop asks the surroundings only for reads and parses. *)
Lemma read_loop_ext fuel env env' :
  (forall k, mbedtls_ssl_read env' k = mbedtls_ssl_read env k) ->
  (forall k data n, parser_execute env' k data n = parser_execute env k data n) ->
  forall k st, read_loop fuel env' k st = read_loop fuel env k st.
Proof.
  intros Hr Hp. induction fuel as [| fuel IH]; intros k st; cbn;
    [reflexivity |].
  rewrite Hr. destruct (mbedtls_ssl_read env k) as [ret data].
  rewrite Hp, IH. reflexivity.
Qed.

Lemma read_loop_full env n :
  forall fuel st r,
    _response st = Some r ->
    (forall j, (j < n)%nat -> full_read env j) ->
    read_loop (n + fuel) env 0 st
    = read_loop fuel env n
                (after_reads st r (read_data env 0 n)
                             (repeat HTTP_RECEIVE_BUFFER_SIZE n)).
Proof.
  induction n as [| n IH]; intros fuel st r Hr Hfull.
  - cbn [Nat.add read_data seq map repeat].
    rewrite after_reads_nil by exact Hr. reflexivity.
  - replace (S n + fuel)%nat with (n + S fuel)%nat by lia.
    rewrite (IH (S fuel) st r Hr) by (intros j Hj; apply Hfull; lia).
    cbn [read_loop].
    destruct (Hfull n (Nat.lt_succ_diag_r n)) as [Hret Hparsed].
    destruct (mbedtls_ssl_read env n) as [ret data] eqn:R.
    cbn [fst snd] in Hret, Hparsed. subst ret.
    destruct (Z.ltb_spec 0 HTTP_RECEIVE_BUFFER_SIZE); [| lia].
    rewrite Hparsed, Z.eqb_refl. cbn [negb].
    rewrite Z.ltb_irrefl.
    rewrite parser_feed_after_reads, read_data_snoc, repeat_snoc.
    cbn [Nat.add]. rewrite R. reflexivity.
Qed.

(** ** [send] up to the read loop *)

Lemma send_transmits fuel env body st :
  reaches_handshake env ->
  0 <= mbedtls_ssl_handshake env ->
  body_written env body st ->
  send fuel env body st = receive fuel env (transmitted env body st).
Proof.
  intros (Hseed & Hcrt & Hconf & Hsetup & Hconn) Hhs Hok.
  unfold body_written in Hok. rewrite crlf_call_chunks in Hok.
  unfold send. cbv zeta.
  rewrite Hseed, Hcrt, Hconf, Hsetup, Hconn, !Z.eqb_refl. cbn [negb].
  destruct (Z.ltb_spec (mbedtls_ssl_handshake env) 0); [lia |].
  unfold ssl_write at 1.
  rewrite check_pass by (apply Hok; cbn; lia).
  rewrite send_body_as_chunks.
  destruct (write_chunks_ok env (chunks_of body)
              (mbedtls_ssl_write env
                 (length (ssl_out (set_socket st SockConnected)))
                 (build env body))
              (log_write (set_socket st SockConnected) (build env body)))
    as [ret' E].
  { intros i buf Hi. apply Hok. cbn in Hi |- *.
    rewrite length_app in Hi. cbn in Hi. lia. }
  rewrite E.
  apply write_chunks_some in E. destruct E as [_ Hret'].
  unfold ssl_write.
  rewrite check_pass by (apply Hret', Hok; cbn; lia).
  rewrite log_writes_cons, log_writes_snoc.
  reflexivity.
Qed.

Lemma receive_frame fuel env st :
  ssl_out (fst (receive fuel env st)) = ssl_out st.
Proof.
  unfold receive.
  pose proof (read_loop_frame fuel env 0 st) as [L _].
  destruct (read_loop fuel env 0 st) as [s | s | ret s]; cbn in L |- *;
    try exact L.
  destruct (ret <? 0); [destruct (not_want ret); exact L |].
  cbn. unfold parser_finish. destruct (_response s); exact L.
Qed.

(** ** The handshake step *)

(** C4. With the five steps before it successful, a handshake that answers
    want-read or want-write makes [send] return no response with that code
    as the last error and the socket still connected; a handshake that
    answers any other negative code makes [send] close the socket, record
    an error ([-1]) and return no response. *)
Theorem send_handshake_policy fuel env body st :
  reaches_handshake env ->
  (mbedtls_ssl_handshake env = MBEDTLS_ERR_SSL_WANT_READ
   \/ mbedtls_ssl_handshake env = MBEDTLS_ERR_SSL_WANT_WRITE ->
   exists st',
     send fuel env body st = (st', Return None)
     /\ get_error st' = mbedtls_ssl_handshake env
     /\ _tcpsocket st' = SockConnected)
  /\ (mbedtls_ssl_handshake env < 0 ->
      mbedtls_ssl_handshake env <> MBEDTLS_ERR_SSL_WANT_READ ->
      mbedtls_ssl_handshake env <> MBEDTLS_ERR_SSL_WANT_WRITE ->
      exists st',
        send fuel env body st = (st', Return None)
        /\ get_error st' = -1
        /\ _tcpsocket st' = SockClosed).
Proof.
  intros (Hseed & Hcrt & Hconf & Hsetup & Hconn).
  unfold send. cbv zeta.
  rewrite Hseed, Hcrt, Hconf, Hsetup, Hconn, !Z.eqb_refl. cbn [negb].
  split.
  - intros Hwant.
    destruct (Z.ltb_spec (mbedtls_ssl_handshake env) 0) as [_ | Hge];
      [| destruct Hwant; lia].
    assert (W : not_want (mbedtls_ssl_handshake env) = false).
    { unfold not_want. destruct Hwant as [-> | ->]; rewrite Z.eqb_refl;
        [reflexivity | apply andb_false_r]. }
    rewrite W. eexists. repeat split.
  - intros Hneg Hr Hw.
    destruct (Z.ltb_spec (mbedtls_ssl_handshake env) 0) as [_ | Hge];
      [| lia].
    rewrite (not_want_true _ Hr Hw). eexists. repeat split.
Qed.

(** ** The read loop *)

Lemma send_reads_full fuel env body st k :
  reaches_handshake env ->
  0 <= mbedtls_ssl_handshake env ->
  body_written env body st ->
  (forall j, (j < k)%nat -> full_read env j) ->
  (k < fuel)%nat ->
  send fuel env body st
  = match read_loop (S (fuel - S k)) env k
            (after_reads (transmitted env body st) empty_response
                         (read_data env 0 k)
                         (repeat HTTP_RECEIVE_BUFFER_SIZE k)) with
    | LoopStuck st => (st, OutOfFuel)
    | LoopReturn st => (st, Return None)
    | LoopDone ret st =>
        if ret <? 0 then
          if not_want ret then (onError st (-1), Return None)
          else (set_error st ret, Return None)
        else
          let st := parser_finish st in
          let st := close st in
          (st, Return (_response st))
    end.
Proof.
  intros Hreach Hhs Hok Hfull Hfuel.
  rewrite send_transmits by assumption. unfold receive.
  replace fuel with (k + S (fuel - S k))%nat at 1 by lia.
  rewrite (read_loop_full env k (S (fuel - S k)) (transmitted env body st)
             empty_response eq_refl Hfull).
  reflexivity.
Qed.

(** C3. If the read loop reaches an iteration in which the parser reports
    fewer bytes consumed than the read supplied, [send] returns no
    response and [get_error] gives [-2101] afterwards. *)
Theorem send_parser_shortfall fuel env body st k :
  reaches_handshake env ->
  0 <= mbedtls_ssl_handshake env ->
  body_written env body st ->
  (forall j, (j < k)%nat -> full_read env j) ->
  (k < fuel)%nat ->
  0 < fst (mbedtls_ssl_read env k) ->
  parser_execute env k (snd (mbedtls_ssl_read env k))
                 (fst (mbedtls_ssl_read env k))
  < fst (mbedtls_ssl_read env k) ->
  exists st',
    send fuel env body st = (st', Return None) /\ get_error st' = -2101.
Proof.
  intros Hreach Hhs Hok Hfull Hfuel Hpos Hshort.
  rewrite (send_reads_full fuel env body st k) by assumption.
  cbn [read_loop].
  destruct (mbedtls_ssl_read env k) as [ret data]. cbn [fst snd] in *.
  destruct (Z.ltb_spec 0 ret); [| lia].
  destruct (Z.eqb_spec (parser_execute env k data ret) ret); [lia |].
  cbn [negb]. eexists. split; reflexivity.
Qed.

(** C6. With everything before the read loop successful and [k] reads
    that filled the buffer and were parsed whole, the loop stops at read
    [k] when that read returns fewer bytes than the buffer holds: the parser
    is finished, the socket closed and the response, holding every chunk
    read, returned.  It also stops when read [k] reports a hard error: the
    socket is closed and no response returned. *)
Theorem send_read_loop_stops fuel env body st k :
  reaches_handshake env ->
  0 <= mbedtls_ssl_handshake env ->
  body_written env body st ->
  (forall j, (j < k)%nat -> full_read env j) ->
  (k < fuel)%nat ->
  let ret := fst (mbedtls_ssl_read env k) in
  let data := snd (mbedtls_ssl_read env k) in
  (0 < ret < HTTP_RECEIVE_BUFFER_SIZE ->
   parser_execute env k data ret = ret ->
   exists st',
     send fuel env body st
     = (st', Return (Some (mkResponse (read_data env 0 (S k)) true)))
     /\ _response st' = Some (mkResponse (read_data env 0 (S k)) true)
     /\ _tcpsocket st' = SockClosed
     /\ get_error st' = get_error st)
  /\ (ret = 0 ->
      exists st',
        send fuel env body st
        = (st', Return (Some (mkResponse (read_data env 0 k) true)))
        /\ _response st' = Some (mkResponse (read_data env 0 k) true)
        /\ _tcpsocket st' = SockClosed
        /\ get_error st' = get_error st)
  /\ (ret < 0 ->
      ret <> MBEDTLS_ERR_SSL_WANT_READ ->
      ret <> MBEDTLS_ERR_SSL_WANT_WRITE ->
      exists st',
        send fuel env body st = (st', Return None)
        /\ _tcpsocket st' = SockClosed
        /\ get_error st' = -1).
Proof.
  intros Hreach Hhs Hok Hfull Hfuel ret data.
  rewrite (send_reads_full fuel env body st k) by assumption.
  cbn [read_loop]. subst ret data.
  destruct (mbedtls_ssl_read env k) as [ret data] eqn:R. cbn [fst snd].
  repeat split.
  - intros [Hpos Hlt] Hparsed.
    destruct (Z.ltb_spec 0 ret); [| lia].
    rewrite Hparsed, Z.eqb_refl. cbn [negb].
    destruct (Z.ltb_spec ret HTTP_RECEIVE_BUFFER_SIZE); [| lia].
    destruct (Z.ltb_spec ret 0); [lia |].
    rewrite parser_feed_after_reads.
    rewrite read_data_snoc, Nat.add_0_l, R. cbn [snd].
    eexists. repeat split.
  - intros ->. cbn. eexists. repeat split.
  - intros Hneg Hr Hw.
    destruct (Z.ltb_spec 0 ret); [lia |].
    destruct (Z.ltb_spec ret 0); [| lia].
    rewrite (not_want_true _ Hr Hw). eexists. repeat split.
Qed.

(** ** The writes *)

Lemma send_ssl_out fuel env body st :
  reaches_handshake env ->
  0 <= mbedtls_ssl_handshake env ->
  body_written env body st ->
  ssl_out (fst (send fuel env body st))
  = ssl_out st ++ build env body :: chunks_of body ++ [CRLF].
Proof.
  intros Hreach Hhs Hok.
  rewrite send_transmits by assumption.
  rewrite receive_frame. reflexivity.
Qed.

(** C5. When the request and the slices are written with success, a body
    of more than 4000 bytes goes out, after the request, as several writes
    of at most 4000 bytes each, as many as the body has started blocks of
    4000 bytes; put end to end they are the body. *)
Theorem send_chunks_large_body fuel env body st :
  4000 < Z.of_nat (length body) ->
  reaches_handshake env ->
  0 <= mbedtls_ssl_handshake env ->
  body_written env body st ->
  exists chunks,
    ssl_out (fst (send fuel env body st))
    = ssl_out st ++ build env body :: chunks ++ [CRLF]
    /\ concat chunks = body
    /\ Forall (fun c => 0 < Z.of_nat (length c) <= 4000) chunks
    /\ Z.of_nat (length chunks) = (Z.of_nat (length body) + 3999) / 4000
    /\ (2 <= length chunks)%nat.
Proof.
  intros Hbig Hreach Hhs Hok.
  exists (chunks_of body).
  split; [apply send_ssl_out; assumption |].
  split; [apply concat_chunks_of |].
  split; [apply chunks_of_bounded |].
  pose proof (length_chunks_of body) as Hlen.
  split; [exact Hlen |].
  assert (2 <= (Z.of_nat (length body) + 3999) / 4000)
    by (Z.div_mod_to_equations; lia).
  lia.
Qed.

(** C7. When the request and the slices of the body are written with
    success, the last buffer [send] writes is the two bytes carriage
    return, line feed, right after the whole body, whatever the request
    built from the method and the headers, whatever the length of the body,
    an absent body included. *)
Theorem send_trailing_crlf fuel env body st :
  reaches_handshake env ->
  0 <= mbedtls_ssl_handshake env ->
  body_written env body st ->
  exists chunks,
    ssl_out (fst (send fuel env body st))
    = ssl_out st ++ build env body :: chunks ++ [CRLF]
    /\ concat chunks = body
    /\ (body = [] -> chunks = [])
    /\ CRLF = [Byte.x0d; Byte.x0a].
Proof.
  intros Hreach Hhs Hok.
  exists (chunks_of body).
  split; [apply send_ssl_out; assumption |].
  split; [apply concat_chunks_of |].
  split; [| reflexivity].
  intros ->. rewrite chunks_of_eq. reflexivity.
Qed.

(** [send] consults the answers to writes only for the calls numbered
    below the one of line 219. *)
Lemma send_env_agree fuel env env' body st :
  mbedtls_ctr_drbg_seed env' = mbedtls_ctr_drbg_seed env ->
  mbedtls_x509_crt_parse env' = mbedtls_x509_crt_parse env ->
  mbedtls_ssl_config_defaults env' = mbedtls_ssl_config_defaults env ->
  mbedtls_ssl_setup env' = mbedtls_ssl_setup env ->
  tcp_connect env' = tcp_connect env ->
  mbedtls_ssl_handshake env' = mbedtls_ssl_handshake env ->
  build env' body = build env body ->
  (forall k, mbedtls_ssl_read env' k = mbedtls_ssl_read env k) ->
  (forall k data n, parser_execute env' k data n = parser_execute env k data n) ->
  (forall i buf,
      (length (ssl_out st) <= i < crlf_call body st)%nat ->
      mbedtls_ssl_write env' i buf = mbedtls_ssl_write env i buf) ->
  send fuel env' body st = send fuel env body st.
Proof.
  intros Hseed Hcrt Hconf Hsetup Hconn Hhs Hbuild Hread Hparse Hwrite.
  rewrite crlf_call_chunks in Hwrite.
  unfold send. cbv zeta.
  rewrite Hseed, Hcrt, Hconf, Hsetup, Hconn, Hhs, Hbuild.
  destruct (negb (mbedtls_ctr_drbg_seed env =? 0)); [reflexivity |].
  destruct (negb (mbedtls_x509_crt_parse env =? 0)); [reflexivity |].
  destruct (negb (mbedtls_ssl_config_defaults env =? 0)); [reflexivity |].
  destruct (negb (mbedtls_ssl_setup env =? 0)); [reflexivity |].
  destruct (negb (tcp_connect env =? NSAPI_ERROR_OK)); [reflexivity |].
  destruct (mbedtls_ssl_handshake env <? 0); [reflexivity |].
  unfold ssl_write at 1 3.
  rewrite Hwrite by (cbn; lia).
  destruct (check_mbedtls_ssl_write _ _) as [[] st1] eqn:C; [reflexivity |].
  apply check_false_inv in C. destruct C as [Hret ->].
  rewrite !send_body_as_chunks.
  rewrite (write_chunks_agree env env').
  2:{ intros i buf Hi. apply Hwrite. cbn in Hi |- *.
      rewrite length_app in Hi. cbn in Hi. lia. }
  destruct (write_chunks env _ _ _) as [st2 [ret' |]] eqn:W; [| reflexivity].
  unfold ssl_write.
  destruct (check_mbedtls_ssl_write ret' _) as [[] st3]; [reflexivity |].
  rewrite (read_loop_ext fuel env env' Hread Hparse).
  reflexivity.
Qed.

(** C10. The answer to the write of the trailing carriage return, line
    feed is never looked at: whatever value [v] that call returns, a
    failure included, [send] ends in the same state with the same result.
    The call in question is the one numbered [crlf_call body st]: when
    the writes go through, it is the last one and its buffer is the two
    bytes. *)
Theorem crlf_write_result_discarded fuel env body st v :
  send fuel (with_write env (crlf_call body st) v) body st
  = send fuel env body st
  /\ mbedtls_ssl_write (with_write env (crlf_call body st) v)
                       (crlf_call body st) CRLF = v
  /\ (reaches_handshake env ->
      0 <= mbedtls_ssl_handshake env ->
      body_written env body st ->
      nth_error (ssl_out (fst (send fuel env body st))) (crlf_call body st)
      = Some CRLF
      /\ length (ssl_out (fst (send fuel env body st)))
         = S (crlf_call body st)).
Proof.
  split; [| split].
  - apply send_env_agree; try reflexivity.
    intros i buf Hi. cbn.
    destruct (Nat.eqb_spec i (crlf_call body st)); [lia | reflexivity].
  - cbn. rewrite Nat.eqb_refl. reflexivity.
  - intros Hreach Hhs Hok.
    rewrite send_ssl_out by assumption.
    rewrite crlf_call_chunks.
    change (build env body :: chunks_of body ++ [CRLF])
      with ((build env body :: chunks_of body) ++ [CRLF]).
    rewrite app_assoc. split.
    + rewrite nth_error_app2 by (rewrite length_app; cbn; lia).
      rewrite length_app. cbn [length].
      replace (_ - _)%nat with 0%nat by lia. reflexivity.
    + rewrite !length_app. cbn. lia.
Qed.

(** ** The last error *)

Lemma read_loop_response fuel env :
  forall k st r,
    _response st = Some r ->
    exists r', _response (loop_state (read_loop fuel env k st)) = Some r'.
Proof.
  induction fuel as [| fuel IH]; intros k st r Hr; cbn; [eauto |].
  destruct (mbedtls_ssl_read env k) as [ret data].
  destruct (0 <? ret); [| cbn; eauto].
  assert (Hfed : exists r1,
             _response (parser_feed (log_store st ret) data) = Some r1).
  { unfold parser_feed. cbn. rewrite Hr. cbn. eauto. }
  destruct Hfed as [r1 Hr1].
  destruct (negb _); [cbn; eauto |].
  destruct (ret <? HTTP_RECEIVE_BUFFER_SIZE); [cbn; eauto |].
  apply (IH _ _ r1 Hr1).
Qed.

Lemma parser_finish_response st r :
  _response st = Some r ->
  _response (close (parser_finish st)) = Some (mkResponse (fed r) true).
Proof. intros Hr. unfold parser_finish. rewrite Hr. reflexivity. Qed.

Lemma parser_finish_set_error st e :
  parser_finish (set_error st e) = set_error (parser_finish st) e.
Proof. unfold parser_finish. cbn. destruct (_response st); reflexivity. Qed.

(** A call that returns no response ends in the same state whatever
    [_error] held before; any other call leaves [_error] as it was. *)
Lemma send_set_error fuel env body st e :
  send fuel env body (set_error st e)
  = match send fuel env body st with
    | (s, Return None) => (s, Return None)
    | (s, o) => (set_error s e, o)
    end.
Proof.
  unfold send. cbv zeta.
  destruct (negb (mbedtls_ctr_drbg_seed env =? 0)); [reflexivity |].
  destruct (negb (mbedtls_x509_crt_parse env =? 0)); [reflexivity |].
  destruct (negb (mbedtls_ssl_config_defaults env =? 0)); [reflexivity |].
  destruct (negb (mbedtls_ssl_setup env =? 0)); [reflexivity |].
  destruct (negb (tcp_connect env =? NSAPI_ERROR_OK)); [reflexivity |].
  destruct (mbedtls_ssl_handshake env <? 0);
    [destruct (not_want _); reflexivity |].
  unfold ssl_write.
  change (log_write (set_socket (set_error st e) SockConnected)
                    (build env body))
    with (set_error (log_write (set_socket st SockConnected)
                               (build env body)) e).
  change (ssl_out (set_socket (set_error st e) SockConnected))
    with (ssl_out (set_socket st SockConnected)).
  rewrite check_set_error.
  destruct (check_mbedtls_ssl_write _ _) as [[] st1] eqn:C; cbn [fst];
    [reflexivity |].
  apply check_false_inv in C. destruct C as [_ ->].
  rewrite !send_body_as_chunks, write_chunks_set_error.
  destruct (write_chunks env _ _ _) as [st2 [ret' |]]; [| reflexivity].
  change (log_write (set_error st2 e) CRLF)
    with (set_error (log_write st2 CRLF) e).
  rewrite check_set_error.
  destruct (check_mbedtls_ssl_write ret' _) as [[] st3] eqn:C; cbn [fst];
    [reflexivity |].
  apply check_false_inv in C. destruct C as [_ ->].
  change (set_response (set_error (log_write st2 CRLF) e)
                       (Some empty_response))
    with (set_error (set_response (log_write st2 CRLF)
                                  (Some empty_response)) e).
  rewrite read_loop_set_error.
  destruct (read_loop_response fuel env 0
              (set_response (log_write st2 CRLF) (Some empty_response))
              empty_response eq_refl) as [r' Hr'].
  destruct (read_loop fuel env 0 _) as [s | s | ret s]; [reflexivity .. |].
  cbn [loop_state] in Hr'.
  destruct (ret <? 0); [destruct (not_want ret); reflexivity |].
  rewrite parser_finish_set_error.
  rewrite (parser_finish_response s r' Hr').
  change (_response (close (set_error (parser_finish s) e)))
    with (_response (close (parser_finish s))).
  rewrite (parser_finish_response s r' Hr').
  reflexivity.
Qed.

(** The codes a call that returns no response can leave in [_error]. *)
Lemma send_failure_codes fuel env body st st' :
  send fuel env body st = (st', Return None) ->
  (mbedtls_ctr_drbg_seed env <> 0 /\ _error st' = mbedtls_ctr_drbg_seed env)
  \/ (mbedtls_x509_crt_parse env <> 0
      /\ _error st' = mbedtls_x509_crt_parse env)
  \/ (mbedtls_ssl_config_defaults env <> 0
      /\ _error st' = mbedtls_ssl_config_defaults env)
  \/ (mbedtls_ssl_setup env <> 0 /\ _error st' = mbedtls_ssl_setup env)
  \/ _error st' = -1
  \/ _error st' = MBEDTLS_ERR_SSL_WANT_READ
  \/ _error st' = MBEDTLS_ERR_SSL_WANT_WRITE
  \/ _error st' = -2101.
Proof.
  assert (Hfailed : forall s s',
             failed_from s s' ->
             _error s' = -1
             \/ _error s' = MBEDTLS_ERR_SSL_WANT_READ
             \/ _error s' = MBEDTLS_ERR_SSL_WANT_WRITE).
  { intros s s' [[E _] | [[E | E] _]]; auto. }
  unfold send. cbv zeta.
  destruct (Z.eqb_spec (mbedtls_ctr_drbg_seed env) 0) as [_ | N]; cbn [negb].
  2:{ intros E. injection E as <-. left. split; [exact N | reflexivity]. }
  destruct (Z.eqb_spec (mbedtls_x509_crt_parse env) 0) as [_ | N];
    cbn [negb].
  2:{ intros E. injection E as <-. right; left.
      split; [exact N | reflexivity]. }
  destruct (Z.eqb_spec (mbedtls_ssl_config_defaults env) 0) as [_ | N];
    cbn [negb].
  2:{ intros E. injection E as <-. right; right; left.
      split; [exact N | reflexivity]. }
  destruct (Z.eqb_spec (mbedtls_ssl_setup env) 0) as [_ | N]; cbn [negb].
  2:{ intros E. injection E as <-. right; right; right; left.
      split; [exact N | reflexivity]. }
  intros E. do 4 right. revert E.
  destruct (negb (tcp_connect env =? NSAPI_ERROR_OK)).
  { intros E. injection E as <-. left. reflexivity. }
  destruct (mbedtls_ssl_handshake env <? 0).
  { destruct (not_want _) eqn:W; intros E; injection E as <-.
    - left. reflexivity.
    - right. apply not_want_false in W. cbn. tauto. }
  unfold ssl_write.
  destruct (check_mbedtls_ssl_write _ _) as [[] st1] eqn:C.
  { intros E. injection E as <-. apply check_true_inv in C.
    destruct C as (_ & F & _). apply Hfailed in F. tauto. }
  apply check_false_inv in C. destruct C as [_ ->].
  rewrite send_body_as_chunks.
  destruct (write_chunks env _ _ _) as [st2 [ret' |]] eqn:W.
  2:{ intros E. injection E as <-. apply write_chunks_none in W.
      destruct W as [F _]. apply Hfailed in F. tauto. }
  destruct (check_mbedtls_ssl_write ret' _) as [[] st3] eqn:C.
  { intros E. injection E as <-. apply check_true_inv in C.
    destruct C as (_ & F & _). apply Hfailed in F. tauto. }
  apply check_false_inv in C. destruct C as [_ ->].
  destruct (read_loop_response fuel env 0
              (set_response (log_write st2 CRLF) (Some empty_response))
              empty_response eq_refl) as [r' Hr'].
  destruct (read_loop fuel env 0 _) as [s | s | ret s] eqn:L.
  - discriminate.
  - intros E. injection E as <-. apply read_loop_return in L. tauto.
  - cbn [loop_state] in Hr'.
    destruct (ret <? 0).
    + destruct (not_want ret) eqn:Wn; intros E; injection E as <-.
      * left. reflexivity.
      * right. apply not_want_false in Wn. cbn. tauto.
    + rewrite (parser_finish_response s r' Hr'). discriminate.
Qed.

(** ** Two paths that go wrong *)

(** The parser-error return of lines 257-263 leaves the socket as the
    connect of line 177 left it. *)
Lemma send_parse_error_socket fuel env body st k :
  reaches_handshake env ->
  0 <= mbedtls_ssl_handshake env ->
  body_written env body st ->
  (forall j, (j < k)%nat -> full_read env j) ->
  (k < fuel)%nat ->
  0 < fst (mbedtls_ssl_read env k) ->
  parser_execute env k (snd (mbedtls_ssl_read env k))
                 (fst (mbedtls_ssl_read env k))
  <> fst (mbedtls_ssl_read env k) ->
  exists st',
    send fuel env body st = (st', Return None)
    /\ _tcpsocket st' = SockConnected.
Proof.
  intros Hreach Hhs Hok Hfull Hfuel Hpos Hshort.
  rewrite (send_reads_full fuel env body st k) by assumption.
  cbn [read_loop].
  destruct (mbedtls_ssl_read env k) as [ret data]. cbn [fst snd] in *.
  destruct (Z.ltb_spec 0 ret); [| lia].
  destruct (Z.eqb_spec (parser_execute env k data ret) ret);
    [contradiction |].
  cbn [negb]. eexists. split; [reflexivity |].
  unfold parser_feed. reflexivity.
Qed.

Lemma read_loop_stores fuel env :
  forall k st,
    exists more,
      nul_stores (loop_state (read_loop fuel env k st))
      = nul_stores st ++ more.
Proof.
  induction fuel as [| fuel IH]; intros k st; cbn.
  - exists []. rewrite app_nil_r. reflexivity.
  - destruct (mbedtls_ssl_read env k) as [ret data].
    destruct (0 <? ret).
    2:{ exists []. rewrite app_nil_r. reflexivity. }
    destruct (parser_feed_frame (log_store st ret) data) as (_ & _ & _ & N).
    cbn [log_store nul_stores] in N.
    destruct (negb _); [exists [ret]; exact N |].
    destruct (ret <? HTTP_RECEIVE_BUFFER_SIZE); [exists [ret]; exact N |].
    destruct (IH (S k) (parser_feed (log_store st ret) data)) as [more E].
    exists (ret :: more). rewrite E, N, <- app_assoc. reflexivity.
Qed.

(** A first read that fills the buffer stores the terminator at index
    [HTTP_RECEIVE_BUFFER_SIZE], which is no index of the buffer. *)
Lemma send_full_read_store fuel env body st :
  reaches_handshake env ->
  0 <= mbedtls_ssl_handshake env ->
  body_written env body st ->
  full_read env 0 ->
  (0 < fuel)%nat ->
  In HTTP_RECEIVE_BUFFER_SIZE (nul_stores (fst (send fuel env body st)))
  /\ in_recv_buffer HTTP_RECEIVE_BUFFER_SIZE = false.
Proof.
  intros Hreach Hhs Hok [Hret Hparsed] Hfuel.
  split.
  2:{ unfold in_recv_buffer. rewrite Z.ltb_irrefl. apply andb_false_r. }
  rewrite send_transmits by assumption. unfold receive.
  destruct fuel as [| fuel]; [lia |].
  cbn [read_loop].
  destruct (mbedtls_ssl_read env 0) as [ret data]. cbn [fst snd] in *.
  subst ret.
  destruct (Z.ltb_spec 0 HTTP_RECEIVE_BUFFER_SIZE); [| lia].
  rewrite Hparsed, Z.eqb_refl, Z.ltb_irrefl. cbn [negb].
  set (st2 := parser_feed _ data).
  assert (Hin : In HTTP_RECEIVE_BUFFER_SIZE (nul_stores st2)).
  { subst st2.
    destruct (parser_feed_frame
                (log_store (transmitted env body st) HTTP_RECEIVE_BUFFER_SIZE)
                data) as (_ & _ & _ & N).
    rewrite N. cbn. apply in_or_app. right. left. reflexivity. }
  destruct (read_loop_stores fuel env 1 st2) as [more E].
  assert (Hloop : In HTTP_RECEIVE_BUFFER_SIZE
                     (nul_stores (loop_state (read_loop fuel env 1 st2)))).
  { rewrite E. apply in_or_app. left. exact Hin. }
  destruct (read_loop fuel env 1 st2) as [s | s | r s]; cbn in Hloop |- *;
    try exact Hloop.
  destruct (r <? 0); [destruct (not_want r); exact Hloop |].
  cbn. unfold parser_finish. destruct (_response s); exact Hloop.
Qed.

End Properties.


(** * More about the slices *)

Lemma chunks_of_small body :
  0 < Z.of_nat (length body) <= 4000 -> chunks_of body = [body].
Proof.
  intros Hlen.
  rewrite chunks_of_eq.
  destruct (Z.ltb_spec 0 (Z.of_nat (length body))); [| lia].
  assert (Hsize : Z.to_nat (send_size body) = length body).
  { unfold send_size.
    destruct (Z.ltb_spec (Z.of_nat (length body)) 4000); lia. }
  rewrite Hsize, firstn_all, skipn_all.
  rewrite chunks_of_eq. reflexivity.
Qed.

(** Slice [i] is the 4000 bytes from offset [4000 * i], fewer at the end
    of the body. *)
Lemma nth_chunks_of i :
  forall body,
    (4000 * i < length body)%nat ->
    nth_error (chunks_of body) i
    = Some (firstn 4000 (skipn (4000 * i) body)).
Proof.
  induction i as [| i IH]; intros body Hi.
  - rewrite Nat.mul_0_r in *. rewrite skipn_O.
    rewrite chunks_of_eq.
    destruct (Z.ltb_spec 0 (Z.of_nat (length body))); [| lia].
    cbn [nth_error]. f_equal. unfold send_size.
    destruct (Z.ltb_spec (Z.of_nat (length body)) 4000).
    + rewrite Nat2Z.id, firstn_all.
      symmetry. apply firstn_all2. lia.
    + replace (Z.to_nat 4000) with 4000%nat by lia. reflexivity.
  - rewrite chunks_of_eq.
    destruct (Z.ltb_spec 0 (Z.of_nat (length body))); [| lia].
    cbn [nth_error].
    assert (Hsize : Z.to_nat (send_size body) = 4000%nat).
    { unfold send_size.
      destruct (Z.ltb_spec (Z.of_nat (length body)) 4000); lia. }
    rewrite Hsize.
    rewrite IH by (rewrite length_skipn; lia).
    rewrite skipn_skipn.
    replace (4000 * S i)%nat with (4000 * i + 4000)%nat by lia.
    reflexivity.
Qed.

(** * Further properties of [send] *)

Section Paths.

Context {P : Platform}.

Hypothesis want_read_below : MBEDTLS_ERR_SSL_WANT_READ < -1.
Hypothesis want_write_below : MBEDTLS_ERR_SSL_WANT_WRITE < -1.
Hypothesis buffer_positive : 0 < HTTP_RECEIVE_BUFFER_SIZE.

Lemma not_want_of_want ret :
  ret = MBEDTLS_ERR_SSL_WANT_READ \/ ret = MBEDTLS_ERR_SSL_WANT_WRITE ->
  not_want ret = false.
Proof.
  intros Hwant. unfold not_want.
  destruct Hwant as [-> | ->]; rewrite Z.eqb_refl;
    [reflexivity | apply andb_false_r].
Qed.

Lemma not_want_above ret : -1 <= ret -> not_want ret = true.
Proof. intros Hret. apply not_want_true; lia. Qed.

(** The request and the slices are written and checked alike: up to the
    trailing write, [send] is a walk over the request followed by the
    slices. *)
Lemma send_after_handshake fuel env body st :
  reaches_handshake env ->
  0 <= mbedtls_ssl_handshake env ->
  send fuel env body st
  = match write_chunks env (build env body :: chunks_of body) 0
                       (set_socket st SockConnected) with
    | (s, None) => (s, Return None)
    | (s, Some _) =>
        receive fuel env
                (set_response (log_write s CRLF) (Some empty_response))
    end.
Proof.
  intros (Hseed & Hcrt & Hconf & Hsetup & Hconn) Hhs.
  unfold send. cbv zeta.
  rewrite Hseed, Hcrt, Hconf, Hsetup, Hconn, !Z.eqb_refl. cbn [negb].
  destruct (Z.ltb_spec (mbedtls_ssl_handshake env) 0); [lia |].
  cbn [write_chunks]. cbv zeta. unfold ssl_write at 1 2 3 4. cbn [fst snd].
  destruct (check_mbedtls_ssl_write _ _) as [[] s1] eqn:C; cbn [fst snd];
    [reflexivity |].
  apply check_false_inv in C. destruct C as [Hret ->].
  rewrite send_body_as_chunks.
  destruct (write_chunks env (chunks_of body) _ _) as [s2 [ret' |]] eqn:W;
    [| reflexivity].
  apply write_chunks_some in W. destruct W as [_ Hret'].
  unfold ssl_write.
  rewrite check_pass by (apply Hret', Hret).
  reflexivity.
Qed.

(** The walk stops at the first write that answers a negative code. *)
Lemma write_chunks_fail_at env cs :
  forall n ret st,
    (n < length cs)%nat ->
    (forall i buf,
        (length (ssl_out st) <= i < length (ssl_out st) + n)%nat ->
        0 <= mbedtls_ssl_write env i buf) ->
    mbedtls_ssl_write env (length (ssl_out st) + n) (nth n cs []) < 0 ->
    write_chunks env cs ret st
    = (let s := log_writes st (firstn (S n) cs) in
       let r := mbedtls_ssl_write env (length (ssl_out st) + n)
                                  (nth n cs []) in
       if not_want r then onError s (-1) else set_error s r,
       None).
Proof.
  induction cs as [| c cs IH]; intros n ret st Hn Hok Hfail;
    [cbn in Hn; lia |].
  destruct n as [| n].
  - cbn [write_chunks nth firstn]. cbv zeta. unfold ssl_write.
    cbn [fst snd]. rewrite Nat.add_0_r in Hfail |- *. cbn [nth] in Hfail.
    unfold check_mbedtls_ssl_write.
    destruct (Z.ltb_spec (mbedtls_ssl_write env (length (ssl_out st)) c) 0);
      [| lia].
    destruct (not_want _); reflexivity.
  - cbn [write_chunks]. cbv zeta. unfold ssl_write. cbn [fst snd].
    rewrite check_pass by (apply Hok; lia). cbn [fst snd].
    assert (Hlen : length (ssl_out (log_write st c))
                   = S (length (ssl_out st))).
    { cbn. rewrite length_app. cbn. lia. }
    rewrite (IH n _ (log_write st c)).
    + rewrite Hlen.
      replace (S (length (ssl_out st)) + n)%nat
        with (length (ssl_out st) + S n)%nat by lia.
      cbn [nth]. cbv zeta.
      rewrite log_writes_cons. reflexivity.
    + cbn in Hn. lia.
    + intros i buf Hi. apply Hok. rewrite Hlen in Hi. lia.
    + rewrite Hlen.
      replace (S (length (ssl_out st)) + n)%nat
        with (length (ssl_out st) + S n)%nat by lia.
      exact Hfail.
Qed.

Lemma send_write_failure_state fuel env body st n :
  reaches_handshake env ->
  0 <= mbedtls_ssl_handshake env ->
  (n <= length (chunks_of body))%nat ->
  (forall i buf,
      (length (ssl_out st) <= i < length (ssl_out st) + n)%nat ->
      0 <= mbedtls_ssl_write env i buf) ->
  mbedtls_ssl_write env (length (ssl_out st) + n)
                    (nth n (build env body :: chunks_of body) []) < 0 ->
  send fuel env body st
  = (let s := log_writes (set_socket st SockConnected)
                         (firstn (S n) (build env body :: chunks_of body)) in
     let r := mbedtls_ssl_write env (length (ssl_out st) + n)
                (nth n (build env body :: chunks_of body) []) in
     if not_want r then onError s (-1) else set_error s r,
     Return None).
Proof.
  intros Hreach Hhs Hn Hok Hfail.
  rewrite send_after_handshake by assumption.
  rewrite (write_chunks_fail_at env _ n 0 (set_socket st SockConnected)).
  - reflexivity.
  - cbn [length]. lia.
  - exact Hok.
  - exact Hfail.
Qed.

Lemma read_loop_error fuel env :
  forall k st,
    match read_loop fuel env k st with
    | LoopReturn _ => True
    | LoopStuck s | LoopDone _ s => _error s = _error st
    end.
Proof.
  induction fuel as [| fuel IH]; intros k st; cbn; [reflexivity |].
  destruct (mbedtls_ssl_read env k) as [ret data].
  destruct (0 <? ret); [| reflexivity].
  destruct (parser_feed_frame (log_store st ret) data) as (_ & _ & E & _).
  destruct (negb _); [exact I |].
  destruct (ret <? HTTP_RECEIVE_BUFFER_SIZE); [exact E |].
  specialize (IH (S k) (parser_feed (log_store st ret) data)).
  destruct (read_loop fuel env (S k) _); [| exact I |];
    rewrite IH; exact E.
Qed.

(** A walk that goes through met no negative answer. *)
Lemma write_chunks_some_answers env cs :
  forall ret st st' ret',
    write_chunks env cs ret st = (st', Some ret') ->
    forall i,
      (i < length cs)%nat ->
      0 <= mbedtls_ssl_write env (length (ssl_out st) + i) (nth i cs []).
Proof.
  induction cs as [| c cs IH]; intros ret st st' ret' E i Hi;
    [cbn in Hi; lia |].
  cbn [write_chunks] in E. cbv zeta in E. unfold ssl_write in E.
  cbn [fst snd] in E.
  destruct (check_mbedtls_ssl_write _ _) as [[] s1] eqn:C; cbn [fst snd] in E;
    [discriminate |].
  apply check_false_inv in C. destruct C as [Hc ->].
  destruct i as [| i].
  - rewrite Nat.add_0_r. exact Hc.
  - cbn [nth].
    replace (length (ssl_out st) + S i)%nat
      with (length (ssl_out (log_write st c)) + i)%nat
      by (cbn; rewrite length_app; cbn; lia).
    apply (IH _ _ _ _ E). cbn in Hi. lia.
Qed.

(** ** Failures on the way *)

(** X11. A TLS set-up step that answers a non-zero code ends [send] at
    once: no response, that code in [_error], the socket neither
    connected nor closed and nothing written.  A connect that fails after
    them closes the socket and leaves [-1], again with nothing written. *)
Theorem send_fails_before_handshake fuel env body st :
  (mbedtls_ctr_drbg_seed env <> 0 ->
   send fuel env body st
   = (set_error st (mbedtls_ctr_drbg_seed env), Return None))
  /\ (mbedtls_ctr_drbg_seed env = 0 ->
      mbedtls_x509_crt_parse env <> 0 ->
      send fuel env body st
      = (set_error st (mbedtls_x509_crt_parse env), Return None))
  /\ (mbedtls_ctr_drbg_seed env = 0 ->
      mbedtls_x509_crt_parse env = 0 ->
      mbedtls_ssl_config_defaults env <> 0 ->
      send fuel env body st
      = (set_error st (mbedtls_ssl_config_defaults env), Return None))
  /\ (mbedtls_ctr_drbg_seed env = 0 ->
      mbedtls_x509_crt_parse env = 0 ->
      mbedtls_ssl_config_defaults env = 0 ->
      mbedtls_ssl_setup env <> 0 ->
      send fuel env body st
      = (set_error st (mbedtls_ssl_setup env), Return None))
  /\ (mbedtls_ctr_drbg_seed env = 0 ->
      mbedtls_x509_crt_parse env = 0 ->
      mbedtls_ssl_config_defaults env = 0 ->
      mbedtls_ssl_setup env = 0 ->
      tcp_connect env <> NSAPI_ERROR_OK ->
      send fuel env body st
      = (mkRequest SockClosed (_response st) (-1) (ssl_out st)
                   (nul_stores st),
         Return None)).
Proof.
  unfold send. cbv zeta.
  repeat split.
  - intros N. destruct (Z.eqb_spec (mbedtls_ctr_drbg_seed env) 0);
      [contradiction | reflexivity].
  - intros -> N. cbn [Z.eqb negb].
    destruct (Z.eqb_spec (mbedtls_x509_crt_parse env) 0);
      [contradiction | reflexivity].
  - intros -> -> N. cbn [Z.eqb negb].
    destruct (Z.eqb_spec (mbedtls_ssl_config_defaults env) 0);
      [contradiction | reflexivity].
  - intros -> -> -> N. cbn [Z.eqb negb].
    destruct (Z.eqb_spec (mbedtls_ssl_setup env) 0);
      [contradiction | reflexivity].
  - intros -> -> -> -> N. cbn [Z.eqb negb].
    destruct (Z.eqb_spec (tcp_connect env) NSAPI_ERROR_OK);
      [contradiction | reflexivity].
Qed.

(** X3. When the write numbered [n] of a call (0 the request, then the
    slices of the body) is the first to answer a negative code, [send]
    returns no response right after it: the writes made are the request
    and the slices up to that one, no trailing line end follows, and the
    object is closed with [-1], or left connected with the code when the
    code is want-read or want-write. *)
Theorem send_stops_at_failed_write fuel env body st n :
  reaches_handshake env ->
  0 <= mbedtls_ssl_handshake env ->
  (n <= length (chunks_of body))%nat ->
  (forall i buf,
      (length (ssl_out st) <= i < length (ssl_out st) + n)%nat ->
      0 <= mbedtls_ssl_write env i buf) ->
  mbedtls_ssl_write env (length (ssl_out st) + n)
                    (nth n (build env body :: chunks_of body) []) < 0 ->
  let r := mbedtls_ssl_write env (length (ssl_out st) + n)
             (nth n (build env body :: chunks_of body) []) in
  exists st',
    send fuel env body st = (st', Return None)
    /\ ssl_out st'
       = ssl_out st ++ firstn (S n) (build env body :: chunks_of body)
    /\ _response st' = _response st
    /\ ((r = MBEDTLS_ERR_SSL_WANT_READ \/ r = MBEDTLS_ERR_SSL_WANT_WRITE) ->
        get_error st' = r /\ _tcpsocket st' = SockConnected)
    /\ (r <> MBEDTLS_ERR_SSL_WANT_READ ->
        r <> MBEDTLS_ERR_SSL_WANT_WRITE ->
        get_error st' = -1 /\ _tcpsocket st' = SockClosed).
Proof.
  intros Hreach Hhs Hn Hok Hfail r.
  rewrite (send_write_failure_state fuel env body st n) by assumption.
  cbv zeta. fold r.
  eexists. split; [reflexivity |].
  destruct (not_want r) eqn:W.
  - split; [reflexivity |]. split; [reflexivity |]. split.
    + intros Hwant. apply not_want_of_want in Hwant. congruence.
    + intros _ _. split; reflexivity.
  - split; [reflexivity |]. split; [reflexivity |]. split.
    + intros _. split; reflexivity.
    + intros Hr Hw. apply not_want_false in W. tauto.
Qed.

(** X5. A read that answers want-read or want-write, after [k] reads that
    filled the buffer, ends [send] without a response and without closing:
    the code is in [_error], the socket stays connected, and [_response]
    keeps the unfinished response with the chunks read so far. *)
Theorem send_read_want fuel env body st k :
  reaches_handshake env ->
  0 <= mbedtls_ssl_handshake env ->
  body_written env body st ->
  (forall j, (j < k)%nat -> full_read env j) ->
  (k < fuel)%nat ->
  fst (mbedtls_ssl_read env k) = MBEDTLS_ERR_SSL_WANT_READ
  \/ fst (mbedtls_ssl_read env k) = MBEDTLS_ERR_SSL_WANT_WRITE ->
  exists st',
    send fuel env body st = (st', Return None)
    /\ get_error st' = fst (mbedtls_ssl_read env k)
    /\ _tcpsocket st' = SockConnected
    /\ _response st' = Some (mkResponse (read_data env 0 k) false).
Proof.
  intros Hreach Hhs Hok Hfull Hfuel Hwant.
  rewrite (send_reads_full buffer_positive fuel env body st k) by assumption.
  cbn [read_loop].
  destruct (mbedtls_ssl_read env k) as [ret data]. cbn [fst snd] in *.
  assert (Hneg : ret < 0) by (destruct Hwant; lia).
  destruct (Z.ltb_spec 0 ret); [lia |].
  destruct (Z.ltb_spec ret 0); [| lia].
  rewrite (not_want_of_want _ Hwant).
  eexists. repeat split.
Qed.

(** ** What a return tells *)

(** X1. A response is returned only by a call in which the set-up, the
    connect and the handshake went through and the write of the request
    and of every slice of the body answered no negative code (the answer of
    the trailing write is not looked at); the request, the whole body in
    its slices and the line end were handed over in that order, the parser
    was finished, the socket is closed, the response returned is the one in
    [_response], and [_error] is what it was before the call. *)
Theorem send_response_sound fuel env body st st' r :
  send fuel env body st = (st', Return (Some r)) ->
  reaches_handshake env
  /\ 0 <= mbedtls_ssl_handshake env
  /\ (forall i,
         (i <= length (chunks_of body))%nat ->
         0 <= mbedtls_ssl_write env (length (ssl_out st) + i)
                (nth i (build env body :: chunks_of body) []))
  /\ ssl_out st' = ssl_out st ++ build env body :: chunks_of body ++ [CRLF]
  /\ _tcpsocket st' = SockClosed
  /\ _response st' = Some r
  /\ finished r = true
  /\ get_error st' = get_error st.
Proof.
  unfold send. cbv zeta.
  destruct (Z.eqb_spec (mbedtls_ctr_drbg_seed env) 0) as [Hseed | _];
    cbn [negb]; [| discriminate].
  destruct (Z.eqb_spec (mbedtls_x509_crt_parse env) 0) as [Hcrt | _];
    cbn [negb]; [| discriminate].
  destruct (Z.eqb_spec (mbedtls_ssl_config_defaults env) 0) as [Hconf | _];
    cbn [negb]; [| discriminate].
  destruct (Z.eqb_spec (mbedtls_ssl_setup env) 0) as [Hsetup | _];
    cbn [negb]; [| discriminate].
  destruct (Z.eqb_spec (tcp_connect env) NSAPI_ERROR_OK) as [Hconn | _];
    cbn [negb]; [| discriminate].
  destruct (Z.ltb_spec (mbedtls_ssl_handshake env) 0) as [_ | Hhs].
  { destruct (not_want _); discriminate. }
  unfold ssl_write.
  destruct (check_mbedtls_ssl_write _ _) as [[] s1] eqn:C; [discriminate |].
  apply check_false_inv in C. destruct C as [Hreq ->].
  rewrite send_body_as_chunks.
  destruct (write_chunks env _ _ _) as [s2 [ret' |]] eqn:W; [| discriminate].
  pose proof (write_chunks_some_answers _ _ _ _ _ _ W) as Hslices.
  apply write_chunks_some in W. destruct W as [-> _].
  destruct (check_mbedtls_ssl_write ret' _) as [[] s3] eqn:C; [discriminate |].
  apply check_false_inv in C. destruct C as [_ ->].
  rewrite log_writes_cons, log_writes_snoc.
  set (start := set_response _ (Some empty_response)).
  destruct (read_loop_response fuel env 0 start empty_response eq_refl)
    as [r' Hr'].
  pose proof (read_loop_frame fuel env 0 start) as [Hout _].
  pose proof (read_loop_error fuel env 0 start) as Herr.
  destruct (read_loop fuel env 0 start) as [s | s | ret s];
    [discriminate .. |].
  cbn [loop_state] in Hr', Hout.
  destruct (ret <? 0); [destruct (not_want ret); discriminate |].
  rewrite (parser_finish_response s r' Hr').
  intros E. injection E as <- <-.
  split; [repeat split; assumption |].
  split; [exact Hhs |].
  split.
  { intros [| i] Hi.
    - rewrite Nat.add_0_r. exact Hreq.
    - cbn [nth].
      replace (length (ssl_out st) + S i)%nat
        with (length (ssl_out (log_write (set_socket st SockConnected)
                                         (build env body))) + i)%nat
        by (cbn; rewrite length_app; cbn; lia).
      apply Hslices. lia. }
  split.
  { change (ssl_out (close (parser_finish s)))
      with (ssl_out (parser_finish s)).
    unfold parser_finish. rewrite Hr'. exact Hout. }
  split; [reflexivity |].
  split; [apply (parser_finish_response s r' Hr') |].
  split; [reflexivity |].
  unfold get_error.
  change (_error (close (parser_finish s))) with (_error (parser_finish s)).
  unfold parser_finish. rewrite Hr'. exact Herr.
Qed.

(** X2. Where the socket is when [send] returns: closed; or, no response
    returned, untouched with nothing written because a TLS set-up step
    failed; or connected with a want-read or want-write code in [_error];
    or connected with [-2101] in [_error]. *)
Theorem send_socket_at_return fuel env body st st' r :
  send fuel env body st = (st', Return r) ->
  _tcpsocket st' = SockClosed
  \/ (r = None
      /\ _tcpsocket st' = _tcpsocket st
      /\ ssl_out st' = ssl_out st
      /\ (mbedtls_ctr_drbg_seed env <> 0
          \/ mbedtls_x509_crt_parse env <> 0
          \/ mbedtls_ssl_config_defaults env <> 0
          \/ mbedtls_ssl_setup env <> 0))
  \/ (r = None
      /\ _tcpsocket st' = SockConnected
      /\ (get_error st' = MBEDTLS_ERR_SSL_WANT_READ
          \/ get_error st' = MBEDTLS_ERR_SSL_WANT_WRITE))
  \/ (r = None
      /\ _tcpsocket st' = SockConnected
      /\ get_error st' = -2101).
Proof.
  assert (Hfailed : forall s s',
             _tcpsocket s = SockConnected ->
             failed_from s s' ->
             _tcpsocket s' = SockClosed
             \/ (_tcpsocket s' = SockConnected
                 /\ (get_error s' = MBEDTLS_ERR_SSL_WANT_READ
                     \/ get_error s' = MBEDTLS_ERR_SSL_WANT_WRITE))).
  { intros s s' Hs [[_ C] | [W T]]; [left; exact C |].
    right. split; [congruence | exact W]. }
  unfold send. cbv zeta.
  destruct (Z.eqb_spec (mbedtls_ctr_drbg_seed env) 0) as [_ | N]; cbn [negb].
  2:{ intros E. injection E as <- <-. right; left. repeat split. tauto. }
  destruct (Z.eqb_spec (mbedtls_x509_crt_parse env) 0) as [_ | N];
    cbn [negb].
  2:{ intros E. injection E as <- <-. right; left. repeat split. tauto. }
  destruct (Z.eqb_spec (mbedtls_ssl_config_defaults env) 0) as [_ | N];
    cbn [negb].
  2:{ intros E. injection E as <- <-. right; left. repeat split. tauto. }
  destruct (Z.eqb_spec (mbedtls_ssl_setup env) 0) as [_ | N]; cbn [negb].
  2:{ intros E. injection E as <- <-. right; left. repeat split. tauto. }
  destruct (negb (tcp_connect env =? NSAPI_ERROR_OK)).
  { intros E. injection E as <- <-. left. reflexivity. }
  destruct (mbedtls_ssl_handshake env <? 0).
  { destruct (not_want _) eqn:W; intros E; injection E as <- <-.
    - left. reflexivity.
    - right; right; left. apply not_want_false in W. repeat split. exact W. }
  unfold ssl_write.
  destruct (check_mbedtls_ssl_write _ _) as [[] s1] eqn:C.
  { intros E. injection E as <- <-. apply check_true_inv in C.
    destruct C as (_ & F & _).
    apply Hfailed in F; [| reflexivity]. destruct F as [F | F]; [tauto |].
    right; right; left. tauto. }
  apply check_false_inv in C. destruct C as [_ ->].
  rewrite send_body_as_chunks.
  destruct (write_chunks env _ _ _) as [s2 [ret' |]] eqn:W.
  2:{ intros E. injection E as <- <-. apply write_chunks_none in W.
      destruct W as [F _].
      apply Hfailed in F; [| reflexivity]. destruct F as [F | F]; [tauto |].
      right; right; left. tauto. }
  apply write_chunks_some in W. destruct W as [-> _].
  destruct (check_mbedtls_ssl_write ret' _) as [[] s3] eqn:C.
  { intros E. injection E as <- <-. apply check_true_inv in C.
    destruct C as (_ & F & _).
    apply Hfailed in F; [| reflexivity]. destruct F as [F | F]; [tauto |].
    right; right; left. tauto. }
  apply check_false_inv in C. destruct C as [_ ->].
  set (start := set_response _ (Some empty_response)).
  pose proof (read_loop_frame fuel env 0 start) as [_ Hsock].
  change (_tcpsocket start) with SockConnected in Hsock.
  destruct (read_loop fuel env 0 start) as [s | s | ret s] eqn:L.
  - discriminate.
  - intros E. injection E as <- <-. apply read_loop_return in L.
    right; right; right. repeat split; assumption.
  - cbn [loop_state] in Hsock.
    destruct (ret <? 0).
    + destruct (not_want ret) eqn:Wn; intros E; injection E as <- <-.
      * left. reflexivity.
      * right; right; left. apply not_want_false in Wn.
        repeat split; assumption.
    + intros E. injection E as <- _. left. reflexivity.
Qed.

(** ** Leaving the read loop *)

(** X7. The read loop has no bound of its own: while every read fills the
    buffer and is parsed whole, [send] goes on reading and does not
    return, one terminator stored per read. *)
Theorem send_keeps_reading fuel env body st :
  reaches_handshake env ->
  0 <= mbedtls_ssl_handshake env ->
  body_written env body st ->
  (forall j, full_read env j) ->
  snd (send fuel env body st) = OutOfFuel
  /\ nul_stores (fst (send fuel env body st))
     = nul_stores st ++ repeat HTTP_RECEIVE_BUFFER_SIZE fuel
  /\ _tcpsocket (fst (send fuel env body st)) = SockConnected.
Proof.
  intros Hreach Hhs Hok Hfull.
  assert (E : send fuel env body st
              = (after_reads (transmitted env body st) empty_response
                             (read_data env 0 fuel)
                             (repeat HTTP_RECEIVE_BUFFER_SIZE fuel),
                 OutOfFuel)).
  { rewrite send_transmits by assumption. unfold receive.
    pose proof (read_loop_full buffer_positive env fuel 0
                  (transmitted env body st) empty_response eq_refl
                  (fun j _ => Hfull j)) as L.
    rewrite Nat.add_0_r in L. rewrite L. reflexivity. }
  rewrite E. repeat split.
Qed.

(** X6. [send] returns as soon as a read does not both fill the buffer
    and get parsed whole: if reads [0], ..., [k - 1] do and read [k]
    returns fewer bytes than the buffer holds or is parsed short, then
    [k + 1] turns of the loop are enough, and more turns allowed change
    nothing. *)
Theorem send_returns_at_first_stop fuel env body st k :
  reaches_handshake env ->
  0 <= mbedtls_ssl_handshake env ->
  body_written env body st ->
  (forall j, (j < k)%nat -> full_read env j) ->
  fst (mbedtls_ssl_read env k) < HTTP_RECEIVE_BUFFER_SIZE
  \/ parser_execute env k (snd (mbedtls_ssl_read env k))
                    (fst (mbedtls_ssl_read env k))
     <> fst (mbedtls_ssl_read env k) ->
  (k < fuel)%nat ->
  (exists st' r, send (S k) env body st = (st', Return r))
  /\ send fuel env body st = send (S k) env body st.
Proof.
  intros Hreach Hhs Hok Hfull Hstop Hfuel.
  rewrite (send_reads_full buffer_positive fuel env body st k)
    by assumption.
  rewrite (send_reads_full buffer_positive (S k) env body st k)
    by (assumption || lia).
  cbn [read_loop].
  destruct (mbedtls_ssl_read env k) as [ret data]. cbn [fst snd] in Hstop.
  destruct (0 <? ret).
  2:{ split; [| reflexivity].
      destruct (ret <? 0); [destruct (not_want ret) |]; eauto. }
  destruct (Z.eqb_spec (parser_execute env k data ret) ret) as [Hp | Hp];
    cbn [negb].
  2:{ split; [eauto | reflexivity]. }
  destruct (Z.ltb_spec ret HTTP_RECEIVE_BUFFER_SIZE) as [Hlt | Hge].
  2:{ destruct Hstop; [lia | contradiction]. }
  split; [| reflexivity].
  destruct (ret <? 0); [destruct (not_want ret) |]; eauto.
Qed.

(** ** The two callbacks *)

(** X12. [ssl_recv] reports a retryable condition exactly when the socket
    answered would-block; any other negative answer becomes [-1], which the
    callers of the TLS layer take as fatal, and a byte count is passed on
    as it is. *)
Theorem ssl_recv_retryable recv :
  (not_want (ssl_recv recv) = false <-> recv = NSAPI_ERROR_WOULD_BLOCK)
  /\ (recv <> NSAPI_ERROR_WOULD_BLOCK -> recv < 0 -> ssl_recv recv = -1)
  /\ (recv <> NSAPI_ERROR_WOULD_BLOCK -> 0 <= recv -> ssl_recv recv = recv).
Proof.
  unfold ssl_recv.
  destruct (Z.eqb_spec NSAPI_ERROR_WOULD_BLOCK recv) as [E | N].
  - split; [| split; intros N; congruence].
    split; [intros _; congruence |].
    intros _. apply not_want_of_want. left. reflexivity.
  - destruct (Z.ltb_spec recv 0) as [Hneg | Hpos].
    + split; [| split; [reflexivity | lia]].
      split; [| congruence].
      rewrite not_want_above by lia. discriminate.
    + split; [| split; [lia | reflexivity]].
      split; [| congruence].
      rewrite not_want_above by lia. discriminate.
Qed.

(** X13. [ssl_send] never reports a retryable condition: for a length
    that fits an [int] its answer is the length, [-1] or the count the
    socket gave, none of them a want code, and would-block comes out as the
    full length. *)
Theorem ssl_send_never_retryable size len :
  0 <= len < 2 ^ 31 ->
  not_want (ssl_send size len) = true
  /\ -1 <= ssl_send size len
  /\ (size = NSAPI_ERROR_WOULD_BLOCK -> ssl_send size len = len)
  /\ (ssl_send size len = -1 ->
      size <> NSAPI_ERROR_WOULD_BLOCK /\ size < 0).
Proof.
  intros Hlen.
  assert (Hint : int_of_size_t len = len).
  { unfold int_of_size_t. cbv zeta.
    rewrite Z.mod_small by lia.
    destruct (Z.ltb_spec len (2 ^ 31)); [reflexivity | lia]. }
  unfold ssl_send. rewrite Hint.
  destruct (Z.eqb_spec NSAPI_ERROR_WOULD_BLOCK size) as [E | N].
  - split; [apply not_want_above; lia |].
    split; [lia |]. split; [reflexivity |]. lia.
  - destruct (Z.ltb_spec size 0) as [Hneg | Hpos].
    + split; [apply not_want_above; lia |].
      split; [lia |]. split; [congruence |].
      intros _. split; [congruence | exact Hneg].
    + split; [apply not_want_above; lia |].
      split; [lia |]. split; [congruence |]. lia.
Qed.

(** ** More about the writes *)

(** X10. A body of 1 to 4000 bytes goes out in a single write, whole,
    between the request and the line end. *)
Theorem send_small_body fuel env body st :
  reaches_handshake env ->
  0 <= mbedtls_ssl_handshake env ->
  body_written env body st ->
  0 < Z.of_nat (length body) <= 4000 ->
  ssl_out (fst (send fuel env body st))
  = ssl_out st ++ [build env body; body; CRLF].
Proof.
  intros Hreach Hhs Hok Hlen.
  rewrite send_ssl_out by assumption.
  rewrite (chunks_of_small body Hlen). reflexivity.
Qed.

(** X9. The write after the request numbered [i] carries the bytes of
    the body from offset [4000 * i] on, 4000 of them or what is left. *)
Theorem send_slice_offsets fuel env body st i :
  reaches_handshake env ->
  0 <= mbedtls_ssl_handshake env ->
  body_written env body st ->
  (4000 * i < length body)%nat ->
  nth_error (ssl_out (fst (send fuel env body st)))
            (length (ssl_out st) + 1 + i)
  = Some (firstn 4000 (skipn (4000 * i) body)).
Proof.
  intros Hreach Hhs Hok Hi.
  rewrite send_ssl_out by assumption.
  pose proof (nth_chunks_of i body Hi) as Hnth.
  assert (Hlt : (i < length (chunks_of body))%nat).
  { apply nth_error_Some. rewrite Hnth. discriminate. }
  rewrite nth_error_app2 by lia.
  replace (length (ssl_out st) + 1 + i - length (ssl_out st))%nat
    with (S i) by lia.
  cbn [nth_error].
  rewrite nth_error_app1 by exact Hlt.
  exact Hnth.
Qed.

(** X4. [send] keeps no record of how far it got.  After a call that
    stopped at write [n] with a want-read or want-write code, the socket
    still connected, a second call that goes through writes the request
    and the whole body again from its first byte. *)
Theorem send_again_starts_over fuel1 fuel2 env1 env2 body st n :
  reaches_handshake env1 ->
  0 <= mbedtls_ssl_handshake env1 ->
  (n <= length (chunks_of body))%nat ->
  (forall i buf,
      (length (ssl_out st) <= i < length (ssl_out st) + n)%nat ->
      0 <= mbedtls_ssl_write env1 i buf) ->
  mbedtls_ssl_write env1 (length (ssl_out st) + n)
                    (nth n (build env1 body :: chunks_of body) [])
  = MBEDTLS_ERR_SSL_WANT_READ
  \/ mbedtls_ssl_write env1 (length (ssl_out st) + n)
                       (nth n (build env1 body :: chunks_of body) [])
     = MBEDTLS_ERR_SSL_WANT_WRITE ->
  reaches_handshake env2 ->
  0 <= mbedtls_ssl_handshake env2 ->
  body_written env2 body (fst (send fuel1 env1 body st)) ->
  snd (send fuel1 env1 body st) = Return None
  /\ _tcpsocket (fst (send fuel1 env1 body st)) = SockConnected
  /\ ssl_out (fst (send fuel2 env2 body (fst (send fuel1 env1 body st))))
     = ssl_out st
       ++ firstn (S n) (build env1 body :: chunks_of body)
       ++ build env2 body :: chunks_of body ++ [CRLF].
Proof.
  intros Hreach1 Hhs1 Hn Hok1 Hwant Hreach2 Hhs2 Hok2.
  rewrite send_ssl_out by assumption.
  rewrite (send_write_failure_state fuel1 env1 body st n); try assumption.
  2:{ destruct Hwant as [-> | ->]; lia. }
  cbv zeta. rewrite (not_want_of_want _ Hwant).
  cbn [fst snd]. repeat split.
  cbn. rewrite <- app_assoc. reflexivity.
Qed.

(** X8. In a call that ends with a short read after [k] reads that
    filled the buffer, one terminator is stored per read, at the index
    equal to the number of bytes read; these stores are all inside the
    receive buffer exactly when no read filled it. *)
Theorem send_terminator_stores fuel env body st k :
  reaches_handshake env ->
  0 <= mbedtls_ssl_handshake env ->
  body_written env body st ->
  (forall j, (j < k)%nat -> full_read env j) ->
  (k < fuel)%nat ->
  0 < fst (mbedtls_ssl_read env k) < HTTP_RECEIVE_BUFFER_SIZE ->
  parser_execute env k (snd (mbedtls_ssl_read env k))
                 (fst (mbedtls_ssl_read env k))
  = fst (mbedtls_ssl_read env k) ->
  nul_stores (fst (send fuel env body st))
  = nul_stores st ++ repeat HTTP_RECEIVE_BUFFER_SIZE k
    ++ [fst (mbedtls_ssl_read env k)]
  /\ (Forall (fun idx => in_recv_buffer idx = true)
             (repeat HTTP_RECEIVE_BUFFER_SIZE k
              ++ [fst (mbedtls_ssl_read env k)])
      <-> k = 0%nat).
Proof.
  intros Hreach Hhs Hok Hfull Hfuel Hret Hparsed.
  split.
  - rewrite (send_reads_full buffer_positive fuel env body st k)
      by assumption.
    cbn [read_loop].
    destruct (mbedtls_ssl_read env k) as [ret data]. cbn [fst snd] in *.
    destruct (Z.ltb_spec 0 ret); [| lia].
    rewrite Hparsed, Z.eqb_refl. cbn [negb].
    destruct (Z.ltb_spec ret HTTP_RECEIVE_BUFFER_SIZE); [| lia].
    destruct (Z.ltb_spec ret 0); [lia |].
    rewrite parser_feed_after_reads. cbn. reflexivity.
  - split.
    + intros Hall. destruct k as [| k]; [reflexivity |].
      cbn [repeat app] in Hall. inversion Hall as [| ? ? Hin _].
      unfold in_recv_buffer in Hin. rewrite Z.ltb_irrefl, andb_false_r in Hin.
      discriminate.
    + intros ->. cbn [repeat app]. constructor; [| constructor].
      unfold in_recv_buffer.
      destruct (Z.leb_spec 0 (fst (mbedtls_ssl_read env 0))); [| lia].
      destruct (Z.ltb_spec (fst (mbedtls_ssl_read env 0))
                           HTTP_RECEIVE_BUFFER_SIZE); [reflexivity | lia].
Qed.

(** ** The last error *)

(** C8. The error state is the one field [_error], which [get_error]
    reads, and a step that makes [send] return no response overwrites it:
    the call ends in the same state whatever code was there before.  The
    code left is fixed by the step: the answer of the TLS set-up step that
    failed; [-1] for a failed connect; for a negative answer of the
    handshake, of the write of the request or of a slice, or of a read,
    that answer when it is want-read or want-write and [-1] otherwise;
    [-2101] when the parser takes another number of bytes than it was
    given.  No other code is left by such a call. *)
Theorem send_records_last_error fuel env body st :
  (forall st',
      send fuel env body st = (st', Return None) ->
      get_error st' = _error st'
      /\ (forall e, send fuel env body (set_error st e) = (st', Return None))
      /\ ((mbedtls_ctr_drbg_seed env <> 0
           /\ get_error st' = mbedtls_ctr_drbg_seed env)
          \/ (mbedtls_x509_crt_parse env <> 0
              /\ get_error st' = mbedtls_x509_crt_parse env)
          \/ (mbedtls_ssl_config_defaults env <> 0
              /\ get_error st' = mbedtls_ssl_config_defaults env)
          \/ (mbedtls_ssl_setup env <> 0
              /\ get_error st' = mbedtls_ssl_setup env)
          \/ get_error st' = -1
          \/ get_error st' = MBEDTLS_ERR_SSL_WANT_READ
          \/ get_error st' = MBEDTLS_ERR_SSL_WANT_WRITE
          \/ get_error st' = -2101))
  /\ (mbedtls_ctr_drbg_seed env <> 0 ->
      exists st',
        send fuel env body st = (st', Return None)
        /\ get_error st' = mbedtls_ctr_drbg_seed env)
  /\ (mbedtls_ctr_drbg_seed env = 0 ->
      mbedtls_x509_crt_parse env <> 0 ->
      exists st',
        send fuel env body st = (st', Return None)
        /\ get_error st' = mbedtls_x509_crt_parse env)
  /\ (mbedtls_ctr_drbg_seed env = 0 ->
      mbedtls_x509_crt_parse env = 0 ->
      mbedtls_ssl_config_defaults env <> 0 ->
      exists st',
        send fuel env body st = (st', Return None)
        /\ get_error st' = mbedtls_ssl_config_defaults env)
  /\ (mbedtls_ctr_drbg_seed env = 0 ->
      mbedtls_x509_crt_parse env = 0 ->
      mbedtls_ssl_config_defaults env = 0 ->
      mbedtls_ssl_setup env <> 0 ->
      exists st',
        send fuel env body st = (st', Return None)
        /\ get_error st' = mbedtls_ssl_setup env)
  /\ (mbedtls_ctr_drbg_seed env = 0 ->
      mbedtls_x509_crt_parse env = 0 ->
      mbedtls_ssl_config_defaults env = 0 ->
      mbedtls_ssl_setup env = 0 ->
      tcp_connect env <> NSAPI_ERROR_OK ->
      exists st',
        send fuel env body st = (st', Return None)
        /\ get_error st' = -1)
  /\ (reaches_handshake env ->
      mbedtls_ssl_handshake env < 0 ->
      exists st',
        send fuel env body st = (st', Return None)
        /\ get_error st'
           = if not_want (mbedtls_ssl_handshake env) then -1
             else mbedtls_ssl_handshake env)
  /\ (reaches_handshake env ->
      0 <= mbedtls_ssl_handshake env ->
      forall n,
        (n <= length (chunks_of body))%nat ->
        (forall i buf,
            (length (ssl_out st) <= i < length (ssl_out st) + n)%nat ->
            0 <= mbedtls_ssl_write env i buf) ->
        mbedtls_ssl_write env (length (ssl_out st) + n)
                          (nth n (build env body :: chunks_of body) []) < 0 ->
        exists st',
          send fuel env body st = (st', Return None)
          /\ get_error st'
             = if not_want
                    (mbedtls_ssl_write env (length (ssl_out st) + n)
                       (nth n (build env body :: chunks_of body) []))
               then -1
               else mbedtls_ssl_write env (length (ssl_out st) + n)
                      (nth n (build env body :: chunks_of body) []))
  /\ (reaches_handshake env ->
      0 <= mbedtls_ssl_handshake env ->
      body_written env body st ->
      forall k,
        (forall j, (j < k)%nat -> full_read env j) ->
        (k < fuel)%nat ->
        (0 < fst (mbedtls_ssl_read env k) ->
         parser_execute env k (snd (mbedtls_ssl_read env k))
                        (fst (mbedtls_ssl_read env k))
         <> fst (mbedtls_ssl_read env k) ->
         exists st',
           send fuel env body st = (st', Return None)
           /\ get_error st' = -2101)
        /\ (fst (mbedtls_ssl_read env k) < 0 ->
            exists st',
              send fuel env body st = (st', Return None)
              /\ get_error st'
                 = if not_want (fst (mbedtls_ssl_read env k)) then -1
                   else fst (mbedtls_ssl_read env k))).
Proof.
  split.
  { intros st' Hfail. split; [reflexivity |]. split.
    - intros e. rewrite send_set_error, Hfail. reflexivity.
    - exact (send_failure_codes fuel env body st st' Hfail). }
  split.
  { intros N. unfold send. cbv zeta.
    destruct (Z.eqb_spec (mbedtls_ctr_drbg_seed env) 0); [contradiction |].
    eexists. split; reflexivity. }
  split.
  { intros E N. unfold send. cbv zeta. rewrite E. cbn [Z.eqb negb].
    destruct (Z.eqb_spec (mbedtls_x509_crt_parse env) 0); [contradiction |].
    eexists. split; reflexivity. }
  split.
  { intros E1 E2 N. unfold send. cbv zeta. rewrite E1, E2.
    cbn [Z.eqb negb].
    destruct (Z.eqb_spec (mbedtls_ssl_config_defaults env) 0);
      [contradiction |].
    eexists. split; reflexivity. }
  split.
  { intros E1 E2 E3 N. unfold send. cbv zeta. rewrite E1, E2, E3.
    cbn [Z.eqb negb].
    destruct (Z.eqb_spec (mbedtls_ssl_setup env) 0); [contradiction |].
    eexists. split; reflexivity. }
  split.
  { intros E1 E2 E3 E4 N. unfold send. cbv zeta. rewrite E1, E2, E3, E4.
    cbn [Z.eqb negb].
    destruct (Z.eqb_spec (tcp_connect env) NSAPI_ERROR_OK); [contradiction |].
    eexists. split; reflexivity. }
  split.
  { intros (Hseed & Hcrt & Hconf & Hsetup & Hconn) Hneg.
    unfold send. cbv zeta.
    rewrite Hseed, Hcrt, Hconf, Hsetup, Hconn, !Z.eqb_refl. cbn [negb].
    destruct (Z.ltb_spec (mbedtls_ssl_handshake env) 0); [| lia].
    destruct (not_want (mbedtls_ssl_handshake env));
      eexists; split; reflexivity. }
  split.
  { intros Hreach Hhs n Hn Hok Hfail.
    rewrite (send_write_failure_state fuel env body st n) by assumption.
    cbv zeta.
    destruct (not_want _); eexists; split; reflexivity. }
  intros Hreach Hhs Hok k Hfull Hfuel.
  rewrite (send_reads_full buffer_positive fuel env body st k)
    by assumption.
  cbn [read_loop].
  destruct (mbedtls_ssl_read env k) as [ret data]. cbn [fst snd].
  split.
  - intros Hpos Hshort.
    destruct (Z.ltb_spec 0 ret); [| lia].
    destruct (Z.eqb_spec (parser_execute env k data ret) ret);
      [contradiction |].
    cbn [negb]. eexists. split; reflexivity.
  - intros Hneg.
    destruct (Z.ltb_spec 0 ret); [lia |].
    destruct (Z.ltb_spec ret 0); [| lia].
    destruct (not_want ret); eexists; split; reflexivity.
Qed.

End Paths.

(** * The smaller functions *)

(** ** C strings *)

Lemma c_str_no_nul s : Forall (fun c => Byte.eqb c Byte.x00 = false) (c_str s).
Proof.
  induction s as [| c s IH]; cbn [c_str]; [constructor |].
  destruct (Byte.eqb c Byte.x00) eqn:E; constructor; assumption.
Qed.

Lemma c_str_terminated s t : c_str (c_str s ++ Byte.x00 :: t) = c_str s.
Proof.
  induction s as [| c s IH]; cbn [c_str app]; [reflexivity |].
  destruct (Byte.eqb c Byte.x00) eqn:E; [reflexivity |].
  cbn [c_str app]. rewrite E, IH. reflexivity.
Qed.

(** ** [my_debug] *)

Lemma basename_loop_spec p :
  forall b dirs pre,
    c_str b = pre ++ c_str p ->
    Forall (fun c => is_separator c = false) pre ->
    ends_with_separator dirs ->
    exists dirs',
      dirs ++ c_str b = dirs' ++ c_str (basename_loop p b)
      /\ Forall (fun c => is_separator c = false)
                (c_str (basename_loop p b))
      /\ ends_with_separator dirs'.
Proof.
  induction p as [| c p IH]; intros b dirs pre Hb Hpre Hdirs.
  - cbn [basename_loop]. cbn [c_str] in Hb. rewrite app_nil_r in Hb.
    exists dirs. rewrite Hb. repeat split; assumption.
  - cbn [basename_loop]. cbn [c_str] in Hb.
    destruct (Byte.eqb c Byte.x00) eqn:E.
    + rewrite app_nil_r in Hb.
      exists dirs. rewrite Hb. repeat split; assumption.
    + destruct (is_separator c) eqn:S.
      * destruct (IH p ((dirs ++ pre) ++ [c]) []) as (dirs' & E1 & E2 & E3).
        { reflexivity. }
        { constructor. }
        { right. exists (dirs ++ pre), c. split; [reflexivity | exact S]. }
        exists dirs'. repeat split; try assumption.
        rewrite <- E1, Hb, <- !app_assoc. reflexivity.
      * destruct (IH b dirs (pre ++ [c])) as (dirs' & E1 & E2 & E3).
        { rewrite Hb, <- app_assoc. reflexivity. }
        { apply Forall_app. split; [exact Hpre |].
          constructor; [exact S | constructor]. }
        { exact Hdirs. }
        exists dirs'. repeat split; assumption.
Qed.

(** X14. The name [my_debug] prints is the end of the file string after
    its last slash or backslash: it holds neither, what comes before it is
    empty or ends with one, and a string without any is printed whole. *)
Theorem my_debug_basename_spec file :
  Forall (fun c => is_separator c = false) (my_debug_basename file)
  /\ (exists dirs,
         c_str file = dirs ++ my_debug_basename file
         /\ ends_with_separator dirs)
  /\ (Forall (fun c => is_separator c = false) (c_str file) ->
      my_debug_basename file = c_str file).
Proof.
  destruct (basename_loop_spec file file [] []) as (dirs & E1 & E2 & E3).
  { reflexivity. }
  { constructor. }
  { left. reflexivity. }
  cbn [app] in E1. fold (my_debug_basename file) in E1, E2.
  split; [exact E2 |]. split; [exists dirs; split; assumption |].
  intros Hnone.
  destruct E3 as [-> | (d & c & -> & S)]; [symmetry; exact E1 |].
  rewrite E1 in Hnone.
  apply Forall_app in Hnone. destruct Hnone as [Hd _].
  apply Forall_app in Hd. destruct Hd as [_ Hc].
  inversion Hc as [| ? ? Hsep _]. congruence.
Qed.

(** ** [setupRealTime] *)

Lemma setupRealTime_zero fuel setTime :
  forall k r, setupRealTime fuel setTime k = Some r -> r = 0.
Proof.
  induction fuel as [| fuel IH]; intros k r; cbn [setupRealTime];
    [discriminate |].
  cbv zeta. destruct (Z.eqb_spec (setTime k) 0) as [E | _]; cbn [negb].
  - intros H. injection H as <-. exact E.
  - apply IH.
Qed.

Lemma setupRealTime_first setTime fuel :
  forall n k,
    (forall j, (j < n)%nat -> setTime (k + j)%nat <> 0) ->
    setTime (k + n)%nat = 0 ->
    setupRealTime fuel setTime k
    = if (n <? fuel)%nat then Some 0 else None.
Proof.
  induction fuel as [| fuel IH]; intros n k Hbefore Hn.
  - reflexivity.
  - cbn [setupRealTime]. cbv zeta.
    destruct n as [| n].
    + rewrite Nat.add_0_r in Hn. rewrite Hn. reflexivity.
    + pose proof (Hbefore 0%nat (Nat.lt_0_succ n)) as H0.
      rewrite Nat.add_0_r in H0.
      destruct (Z.eqb_spec (setTime k) 0); [contradiction |]. cbn [negb].
      rewrite (IH n (S k)).
      * reflexivity.
      * intros j Hj. replace (S k + j)%nat with (k + S j)%nat by lia.
        apply Hbefore. lia.
      * replace (S k + n)%nat with (k + S n)%nat by lia. exact Hn.
Qed.

Lemma setupRealTime_never setTime fuel :
  forall k,
    (forall j, setTime j <> 0) -> setupRealTime fuel setTime k = None.
Proof.
  induction fuel as [| fuel IH]; intros k Hnever; [reflexivity |].
  cbn [setupRealTime]. cbv zeta.
  destruct (Z.eqb_spec (setTime k) 0) as [E | _];
    [destruct (Hnever k E) |].
  cbn [negb]. apply IH, Hnever.
Qed.

(** X15. [setupRealTime] asks the time server again and again until an
    answer is 0: it returns only 0; when answer [n] is the first 0 it
    returns after [n + 1] calls and not before; and when no answer is 0 it
    does not return. *)
Theorem setupRealTime_retries setTime :
  (forall fuel k r, setupRealTime fuel setTime k = Some r -> r = 0)
  /\ (forall n fuel,
         (forall j, (j < n)%nat -> setTime j <> 0) ->
         setTime n = 0 ->
         setupRealTime fuel setTime 0
         = if (n <? fuel)%nat then Some 0 else None)
  /\ ((forall j, setTime j <> 0) ->
      forall fuel, setupRealTime fuel setTime 0 = None).
Proof.
  split; [| split].
  - intros fuel k r. apply setupRealTime_zero.
  - intros n fuel Hbefore Hn.
    apply (setupRealTime_first setTime fuel n 0%nat); assumption.
  - intros Hnever fuel. apply setupRealTime_never, Hnever.
Qed.

(** ** [generateGuidStr] and the request address *)

(** X16. [generateGuidStr] returns [-1] exactly when the pointer is NULL
    or the request gave no response, and then stores nothing.  Otherwise
    it stores the body up to its first zero byte, and a terminator, and
    returns the number of characters; the copy stays inside the 33 bytes
    [recognizeSpeech] allots exactly when that number is at most 32. *)
Theorem generateGuidStr_result guidStr_null reply r0 :
  (forall body, reply = Some body -> Z.of_nat (length body) < 2 ^ 31) ->
  let ret := fst (fst (generateGuidStr guidStr_null reply r0)) in
  let stored := snd (fst (generateGuidStr guidStr_null reply r0)) in
  (ret = -1 <-> guidStr_null = true \/ reply = None)
  /\ (ret = -1 -> stored = [])
  /\ (ret <> -1 ->
      exists body,
        reply = Some body
        /\ stored = c_str body ++ [Byte.x00]
        /\ ret = Z.of_nat (length (c_str body))
        /\ (Z.of_nat (length stored) <= GUID_BUFFER_BYTES <-> ret <= 32)).
Proof.
  intros Hsize ret stored. subst ret stored.
  unfold generateGuidStr.
  destruct guidStr_null.
  { cbn. split; [split; intros _; [left |]; reflexivity |].
    split; [reflexivity |]. intros N. contradiction. }
  destruct reply as [body |].
  2:{ cbn. split; [split; intros _; [right |]; reflexivity |].
      split; [reflexivity |]. intros N. contradiction. }
  cbn [fst snd]. cbv zeta.
  rewrite c_str_terminated.
  assert (Hlen : Z.of_nat (length (c_str body)) <= Z.of_nat (length body)).
  { clear Hsize. induction body as [| c body IH]; cbn [c_str]; [lia |].
    destruct (Byte.eqb c Byte.x00); cbn [length]; lia. }
  specialize (Hsize body eq_refl).
  assert (Hint : int_of_size_t (Z.of_nat (length (c_str body)))
                 = Z.of_nat (length (c_str body))).
  { unfold int_of_size_t. cbv zeta.
    rewrite Z.mod_small by lia.
    destruct (Z.ltb_spec (Z.of_nat (length (c_str body))) (2 ^ 31));
      [reflexivity | lia]. }
  rewrite Hint.
  split; [| split].
  - split; [lia |]. intros [N | N]; discriminate.
  - lia.
  - intros _. exists body.
    split; [reflexivity |]. split; [reflexivity |]. split; [reflexivity |].
    rewrite length_app. cbn [length]. unfold GUID_BUFFER_BYTES. lia.
Qed.

(** X17. The address [recognizeSpeech] formats takes 186 bytes and the
    characters of the device id and of the guid; with at most 36
    characters each it fits the 300 bytes of [_requestUri]. *)
Theorem recognizeSpeech_uri_fits _deviceId guid :
  Z.of_nat (length (c_str _deviceId)) <= 36 ->
  Z.of_nat (length (c_str guid)) <= 36 ->
  Z.of_nat (length (recognizeSpeech_uri _deviceId guid))
  = 186 + Z.of_nat (length (c_str _deviceId))
    + Z.of_nat (length (c_str guid))
  /\ Z.of_nat (length (recognizeSpeech_uri _deviceId guid))
     <= REQUEST_URI_BYTES.
Proof.
  intros Hd Hg.
  assert (E : Z.of_nat (length (recognizeSpeech_uri _deviceId guid))
              = 186 + Z.of_nat (length (c_str _deviceId))
                + Z.of_nat (length (c_str guid))).
  { unfold recognizeSpeech_uri. rewrite !length_app.
    change (length SpeechUrl.HEAD) with 174%nat.
    change (length SpeechUrl.MID) with 11%nat.
    cbn [length]. lia. }
  split; [exact E |]. rewrite E. unfold REQUEST_URI_BYTES. lia.
Qed.

(** * The class at the concrete platform *)

(** ** Runs that end badly *)

(** C1. A reply whose first five bytes the parser takes only four of:
    [send] returns no response with [-2101], and the socket it connected
    is still connected, not closed. *)
Theorem send_parse_error_leaves_socket_connected :
  send (P := mbed) 1 desync_env [] fresh
  = (mkRequest SockConnected (Some (mkResponse [short_reply] false))
               (-2101) [[Byte.x47]; CRLF] [5],
     Return None)
  /\ _tcpsocket (fst (send (P := mbed) 1 desync_env [] fresh)) <> SockClosed.
Proof. split; [vm_compute; reflexivity | vm_compute; discriminate]. Qed.

(** C2. The socket answers would-block ([-3001]) to a send of 4000 bytes:
    [ssl_send] reports 4000 bytes written, which the write check takes as
    success, recording nothing; [ssl_recv] turns the same answer into the
    want-read code. *)
Theorem ssl_send_would_block_reports_success :
  ssl_send (P := mbed) (-3001) 4000 = 4000
  /\ check_mbedtls_ssl_write (P := mbed) (ssl_send (P := mbed) (-3001) 4000)
                             fresh
     = (false, fresh)
  /\ ssl_recv (P := mbed) (-3001) = -26880.
Proof. repeat split. Qed.

(** C9. A read that fills the 1024-byte buffer: the terminator is stored
    at index 1024, one past the last byte of the buffer, and [send] goes on
    to return a response. *)
Theorem full_read_stores_past_buffer :
  nul_stores (fst (send (P := mbed) 2 (full_then 0) [] fresh)) = [1024]
  /\ in_recv_buffer (P := mbed) 1024 = false
  /\ in_recv_buffer (P := mbed) 1023 = true
  /\ exists r, snd (send (P := mbed) 2 (full_then 0) [] fresh)
               = Return (Some r).
Proof.
  split; [vm_compute; reflexivity |].
  split; [reflexivity |].
  split; [reflexivity |].
  eexists. vm_compute. reflexivity.
Qed.

(** ** Instances of the general statements *)

Lemma send_handshake_policy_witness :
  exists st',
    send (P := mbed) 1 (handshake_env (-26880)) [] fresh = (st', Return None)
    /\ get_error st' = -26880
    /\ _tcpsocket st' = SockConnected.
Proof.
  refine (proj1 (@send_handshake_policy mbed _ _ 1%nat (handshake_env (-26880))
                   [] fresh _) _).
  - reflexivity.
  - reflexivity.
  - repeat split.
  - left. reflexivity.
Defined.

Lemma send_parser_shortfall_witness :
  exists st',
    send (P := mbed) 1 desync_env [] fresh = (st', Return None)
    /\ get_error st' = -2101.
Proof.
  refine (@send_parser_shortfall mbed _ 1%nat desync_env [] fresh 0%nat
            _ _ _ _ _ _ _).
  - reflexivity.
  - repeat split.
  - discriminate.
  - intros i buf _. cbn. lia.
  - intros j Hj. lia.
  - lia.
  - reflexivity.
  - reflexivity.
Defined.

Lemma send_read_loop_stops_witness :
  exists st',
    send (P := mbed) 2 (full_then 0) [] fresh
    = (st', Return (Some (mkResponse (read_data (full_then 0) 0 1) true)))
    /\ _response st' = Some (mkResponse (read_data (full_then 0) 0 1) true)
    /\ _tcpsocket st' = SockClosed
    /\ get_error st' = get_error fresh.
Proof.
  refine (proj1 (proj2 (@send_read_loop_stops mbed _ 2%nat (full_then 0) []
                          fresh 1%nat _ _ _ _ _)) _).
  - reflexivity.
  - repeat split.
  - discriminate.
  - intros i buf _. cbn. lia.
  - intros j Hj. assert (j = 0%nat) as -> by lia. split; reflexivity.
  - lia.
  - reflexivity.
Defined.

Lemma send_chunks_large_body_witness :
  exists chunks,
    ssl_out (fst (send (P := mbed) 1 quiet_env big_body fresh))
    = ssl_out fresh ++ build quiet_env big_body :: chunks ++ [CRLF]
    /\ concat chunks = big_body
    /\ Forall (fun c => 0 < Z.of_nat (length c) <= 4000) chunks
    /\ Z.of_nat (length chunks) = (Z.of_nat (length big_body) + 3999) / 4000
    /\ (2 <= length chunks)%nat.
Proof.
  refine (@send_chunks_large_body mbed 1%nat quiet_env big_body fresh
            _ _ _ _).
  - unfold big_body. rewrite repeat_length. lia.
  - repeat split.
  - discriminate.
  - intros i buf _. cbn. lia.
Defined.

Lemma send_trailing_crlf_witness :
  exists chunks,
    ssl_out (fst (send (P := mbed) 1 quiet_env [] fresh))
    = ssl_out fresh ++ build quiet_env [] :: chunks ++ [CRLF]
    /\ concat chunks = []
    /\ (@nil byte = [] -> chunks = [])
    /\ CRLF = [Byte.x0d; Byte.x0a].
Proof.
  refine (@send_trailing_crlf mbed 1%nat quiet_env [] fresh _ _ _).
  - repeat split.
  - discriminate.
  - intros i buf _. cbn. lia.
Defined.

Lemma crlf_write_result_discarded_witness :
  send (P := mbed) 1 (with_write quiet_env (crlf_call [Byte.x01] fresh) (-1))
       [Byte.x01] fresh
  = send (P := mbed) 1 quiet_env [Byte.x01] fresh
  /\ nth_error (ssl_out (fst (send (P := mbed) 1 quiet_env [Byte.x01] fresh)))
               (crlf_call [Byte.x01] fresh)
     = Some CRLF.
Proof.
  pose proof (@crlf_write_result_discarded mbed 1%nat quiet_env [Byte.x01]
                fresh (-1)) as (Hsame & _ & Hcall).
  split; [exact Hsame |].
  refine (proj1 (Hcall _ _ _)).
  - repeat split.
  - discriminate.
  - intros i buf _. cbn. lia.
Defined.

(** ** Instances of the further statements *)

Lemma send_stops_at_failed_write_witness :
  let r := mbedtls_ssl_write (with_write quiet_env 1 (-1))
             (length (ssl_out fresh) + 1)
             (nth 1 (build (with_write quiet_env 1 (-1)) [Byte.x01]
                     :: chunks_of [Byte.x01]) []) in
  exists st',
    send (P := mbed) 1 (with_write quiet_env 1 (-1)) [Byte.x01] fresh
    = (st', Return None)
    /\ ssl_out st'
       = ssl_out fresh
         ++ firstn 2 (build (with_write quiet_env 1 (-1)) [Byte.x01]
                      :: chunks_of [Byte.x01])
    /\ _response st' = _response fresh
    /\ ((r = -26880 \/ r = -26752) ->
        get_error st' = r /\ _tcpsocket st' = SockConnected)
    /\ (r <> -26880 -> r <> -26752 ->
        get_error st' = -1 /\ _tcpsocket st' = SockClosed).
Proof.
  refine (@send_stops_at_failed_write mbed 1%nat (with_write quiet_env 1 (-1))
            [Byte.x01] fresh 1%nat _ _ _ _ _).
  - repeat split.
  - discriminate.
  - vm_compute. apply le_n.
  - intros i buf Hi. assert (i = 0%nat) as -> by (cbn in Hi; lia).
    cbn. lia.
  - reflexivity.
Defined.

Lemma send_read_want_witness :
  exists st',
    send (P := mbed) 2 (full_then (-26880)) [] fresh = (st', Return None)
    /\ get_error st' = fst (mbedtls_ssl_read (full_then (-26880)) 1)
    /\ _tcpsocket st' = SockConnected
    /\ _response st'
       = Some (mkResponse (read_data (full_then (-26880)) 0 1) false).
Proof.
  refine (@send_read_want mbed _ _ _ 2%nat (full_then (-26880)) [] fresh
            1%nat _ _ _ _ _ _).
  - reflexivity.
  - reflexivity.
  - reflexivity.
  - repeat split.
  - discriminate.
  - intros i buf _. cbn. lia.
  - intros j Hj. assert (j = 0%nat) as -> by lia. split; reflexivity.
  - lia.
  - left. reflexivity.
Defined.

Lemma send_response_sound_witness :
  reaches_handshake (P := mbed) quiet_env
  /\ 0 <= mbedtls_ssl_handshake quiet_env
  /\ (forall i,
         (i <= length (chunks_of []))%nat ->
         0 <= mbedtls_ssl_write quiet_env (length (ssl_out fresh) + i)
                (nth i (build quiet_env [] :: chunks_of []) []))
  /\ ssl_out (mkRequest SockClosed (Some (mkResponse [short_reply] true)) 0
                        [[Byte.x47]; CRLF] [5])
     = ssl_out fresh ++ build quiet_env [] :: chunks_of [] ++ [CRLF]
  /\ _tcpsocket (mkRequest SockClosed (Some (mkResponse [short_reply] true))
                           0 [[Byte.x47]; CRLF] [5])
     = SockClosed
  /\ _response (mkRequest SockClosed (Some (mkResponse [short_reply] true))
                          0 [[Byte.x47]; CRLF] [5])
     = Some (mkResponse [short_reply] true)
  /\ finished (mkResponse [short_reply] true) = true
  /\ get_error (mkRequest SockClosed (Some (mkResponse [short_reply] true))
                          0 [[Byte.x47]; CRLF] [5])
     = get_error fresh.
Proof.
  refine (@send_response_sound mbed 1%nat quiet_env [] fresh _ _ _).
  vm_compute. reflexivity.
Defined.

Lemma send_socket_at_return_witness :
  _tcpsocket (mkRequest SockConnected (Some (mkResponse [short_reply] false))
                        (-2101) [[Byte.x47]; CRLF] [5])
  = SockClosed
  \/ (@None HttpResponse = None
      /\ _tcpsocket (mkRequest SockConnected
                               (Some (mkResponse [short_reply] false))
                               (-2101) [[Byte.x47]; CRLF] [5])
         = _tcpsocket fresh
      /\ ssl_out (mkRequest SockConnected
                            (Some (mkResponse [short_reply] false))
                            (-2101) [[Byte.x47]; CRLF] [5])
         = ssl_out fresh
      /\ (mbedtls_ctr_drbg_seed desync_env <> 0
          \/ mbedtls_x509_crt_parse desync_env <> 0
          \/ mbedtls_ssl_config_defaults desync_env <> 0
          \/ mbedtls_ssl_setup desync_env <> 0))
  \/ (@None HttpResponse = None
      /\ _tcpsocket (mkRequest SockConnected
                               (Some (mkResponse [short_reply] false))
                               (-2101) [[Byte.x47]; CRLF] [5])
         = SockConnected
      /\ (get_error (mkRequest SockConnected
                               (Some (mkResponse [short_reply] false))
                               (-2101) [[Byte.x47]; CRLF] [5])
          = -26880
          \/ get_error (mkRequest SockConnected
                                  (Some (mkResponse [short_reply] false))
                                  (-2101) [[Byte.x47]; CRLF] [5])
             = -26752))
  \/ (@None HttpResponse = None
      /\ _tcpsocket (mkRequest SockConnected
                               (Some (mkResponse [short_reply] false))
                               (-2101) [[Byte.x47]; CRLF] [5])
         = SockConnected
      /\ get_error (mkRequest SockConnected
                              (Some (mkResponse [short_reply] false))
                              (-2101) [[Byte.x47]; CRLF] [5])
         = -2101).
Proof.
  refine (@send_socket_at_return mbed 1%nat desync_env [] fresh _ _ _).
  vm_compute. reflexivity.
Defined.

Lemma send_keeps_reading_witness :
  snd (send (P := mbed) 3 endless_env [] fresh) = OutOfFuel
  /\ nul_stores (fst (send (P := mbed) 3 endless_env [] fresh))
     = nul_stores fresh ++ repeat 1024 3
  /\ _tcpsocket (fst (send (P := mbed) 3 endless_env [] fresh))
     = SockConnected.
Proof.
  refine (@send_keeps_reading mbed _ 3%nat endless_env [] fresh _ _ _ _).
  - reflexivity.
  - repeat split.
  - discriminate.
  - intros i buf _. cbn. lia.
  - intros j. split; reflexivity.
Defined.

Lemma send_returns_at_first_stop_witness :
  (exists st' r, send (P := mbed) 1 quiet_env [] fresh = (st', Return r))
  /\ send (P := mbed) 7 quiet_env [] fresh
     = send (P := mbed) 1 quiet_env [] fresh.
Proof.
  refine (@send_returns_at_first_stop mbed _ 7%nat quiet_env [] fresh 0%nat
            _ _ _ _ _ _).
  - reflexivity.
  - repeat split.
  - discriminate.
  - intros i buf _. cbn. lia.
  - intros j Hj. lia.
  - left. reflexivity.
  - lia.
Defined.

Lemma ssl_recv_retryable_witness :
  (not_want (P := mbed) (ssl_recv (P := mbed) (-3001)) = false
   <-> -3001 = -3001)
  /\ (-3001 <> -3001 -> -3001 < 0 -> ssl_recv (P := mbed) (-3001) = -1)
  /\ (-3001 <> -3001 -> 0 <= -3001 -> ssl_recv (P := mbed) (-3001) = -3001).
Proof.
  refine (@ssl_recv_retryable mbed _ _ (-3001)).
  - reflexivity.
  - reflexivity.
Defined.

Lemma ssl_send_never_retryable_witness :
  not_want (P := mbed) (ssl_send (P := mbed) (-3001) 4000) = true
  /\ -1 <= ssl_send (P := mbed) (-3001) 4000
  /\ (-3001 = -3001 -> ssl_send (P := mbed) (-3001) 4000 = 4000)
  /\ (ssl_send (P := mbed) (-3001) 4000 = -1 ->
      -3001 <> -3001 /\ -3001 < 0).
Proof.
  refine (@ssl_send_never_retryable mbed _ _ (-3001) 4000 _).
  - reflexivity.
  - reflexivity.
  - split; [discriminate | reflexivity].
Defined.

Lemma send_small_body_witness :
  ssl_out (fst (send (P := mbed) 1 quiet_env [Byte.x01] fresh))
  = ssl_out fresh ++ [build quiet_env [Byte.x01]; [Byte.x01]; CRLF].
Proof.
  refine (@send_small_body mbed 1%nat quiet_env [Byte.x01] fresh _ _ _ _).
  - repeat split.
  - discriminate.
  - intros i buf _. cbn. lia.
  - cbn. lia.
Defined.

Lemma send_slice_offsets_witness :
  nth_error (ssl_out (fst (send (P := mbed) 1 quiet_env big_body fresh)))
            (length (ssl_out fresh) + 1 + 2)
  = Some (firstn 4000 (skipn (4000 * 2) big_body)).
Proof.
  refine (@send_slice_offsets mbed 1%nat quiet_env big_body fresh 2%nat
            _ _ _ _).
  - repeat split.
  - discriminate.
  - intros i buf _. cbn. lia.
  - unfold big_body. rewrite repeat_length. lia.
Defined.

Lemma send_again_starts_over_witness :
  snd (send (P := mbed) 1 (with_write quiet_env 1 (-26752)) [Byte.x01] fresh)
  = Return None
  /\ _tcpsocket (fst (send (P := mbed) 1 (with_write quiet_env 1 (-26752))
                           [Byte.x01] fresh))
     = SockConnected
  /\ ssl_out (fst (send (P := mbed) 1 quiet_env [Byte.x01]
                        (fst (send (P := mbed) 1
                                   (with_write quiet_env 1 (-26752))
                                   [Byte.x01] fresh))))
     = ssl_out fresh
       ++ firstn 2 (build (with_write quiet_env 1 (-26752)) [Byte.x01]
                    :: chunks_of [Byte.x01])
       ++ build quiet_env [Byte.x01] :: chunks_of [Byte.x01] ++ [CRLF].
Proof.
  refine (@send_again_starts_over mbed _ _ 1%nat 1%nat
            (with_write quiet_env 1 (-26752)) quiet_env [Byte.x01] fresh
            1%nat _ _ _ _ _ _ _ _).
  - reflexivity.
  - reflexivity.
  - repeat split.
  - discriminate.
  - vm_compute. apply le_n.
  - intros i buf Hi. assert (i = 0%nat) as -> by (cbn in Hi; lia).
    cbn. lia.
  - right. reflexivity.
  - repeat split.
  - discriminate.
  - intros i buf _. cbn. lia.
Defined.

Lemma generateGuidStr_result_witness :
  let ret := fst (fst (generateGuidStr false (Some guid_reply) None)) in
  let stored := snd (fst (generateGuidStr false (Some guid_reply) None)) in
  (ret = -1 <-> false = true \/ Some guid_reply = None)
  /\ (ret = -1 -> stored = [])
  /\ (ret <> -1 ->
      exists body,
        Some guid_reply = Some body
        /\ stored = c_str body ++ [Byte.x00]
        /\ ret = Z.of_nat (length (c_str body))
        /\ (Z.of_nat (length stored) <= GUID_BUFFER_BYTES <-> ret <= 32)).
Proof.
  refine (@generateGuidStr_result false (Some guid_reply) None _).
  intros body E. injection E as <-. vm_compute. reflexivity.
Defined.

Lemma recognizeSpeech_uri_fits_witness :
  Z.of_nat (length (recognizeSpeech_uri guid_reply guid_reply))
  = 186 + Z.of_nat (length (c_str guid_reply))
    + Z.of_nat (length (c_str guid_reply))
  /\ Z.of_nat (length (recognizeSpeech_uri guid_reply guid_reply))
     <= REQUEST_URI_BYTES.
Proof.
  refine (@recognizeSpeech_uri_fits guid_reply guid_reply _ _).
  - vm_compute. discriminate.
  - vm_compute. discriminate.
Defined.

Lemma send_terminator_stores_witness :
  nul_stores (fst (send (P := mbed) 3 (full_then 5) [] fresh))
  = nul_stores fresh ++ repeat 1024 1
    ++ [fst (mbedtls_ssl_read (full_then 5) 1)]
  /\ (Forall (fun idx => in_recv_buffer (P := mbed) idx = true)
             (repeat 1024 1 ++ [fst (mbedtls_ssl_read (full_then 5) 1)])
      <-> 1%nat = 0%nat).
Proof.
  refine (@send_terminator_stores mbed _ 3%nat (full_then 5) [] fresh 1%nat
            _ _ _ _ _ _ _).
  - reflexivity.
  - repeat split.
  - discriminate.
  - intros i buf _. cbn. lia.
  - intros j Hj. assert (j = 0%nat) as -> by lia. split; reflexivity.
  - lia.
  - split; reflexivity.
  - reflexivity.
Defined.

(** ** Where the wording of two statements goes too far *)

(** C7 as worded fails: a call with a one-byte body reaches the body
    loop, the write of its only slice answers [-1], and [send] returns no
    response from inside the loop with no line end written. *)
Lemma send_trailing_crlf_counterexample :
  reaches_handshake (P := mbed) (with_write quiet_env 1 (-1))
  /\ 0 <= mbedtls_ssl_handshake (with_write quiet_env 1 (-1))
  /\ 0 <= mbedtls_ssl_write (with_write quiet_env 1 (-1))
            (length (ssl_out fresh))
            (build (with_write quiet_env 1 (-1)) [Byte.x01])
  /\ send (P := mbed) 1 (with_write quiet_env 1 (-1)) [Byte.x01] fresh
     = (mkRequest SockClosed None (-1)
                  [[Byte.x47; Byte.x01]; [Byte.x01]] [],
        Return None)
  /\ ~ In CRLF
       (ssl_out (fst (send (P := mbed) 1 (with_write quiet_env 1 (-1))
                           [Byte.x01] fresh))).
Proof.
  split; [repeat split |].
  split; [discriminate |].
  split; [discriminate |].
  split; [vm_compute; reflexivity |].
  vm_compute. intros [H | [H | []]]; discriminate H.
Qed.

(** C8 as worded fails twice.  A handshake that answers the fatal code
    [-29184] leaves [-1], not that code.  And with no body the trailing
    write is the one numbered 1: when it answers [-1], [send] returns the
    response and [_error] keeps the 7 it held before. *)
Lemma send_records_last_error_counterexample :
  send (P := mbed) 1 (handshake_env (-29184)) [] (set_error fresh 7)
  = (mkRequest SockClosed None (-1) [] [], Return None)
  /\ get_error
       (fst (send (P := mbed) 1 (handshake_env (-29184)) []
                  (set_error fresh 7)))
     <> mbedtls_ssl_handshake (handshake_env (-29184))
  /\ crlf_call [] (set_error fresh 7) = 1%nat
  /\ mbedtls_ssl_write (with_write quiet_env 1 (-1)) 1 CRLF = -1
  /\ send (P := mbed) 1 (with_write quiet_env 1 (-1)) [] (set_error fresh 7)
     = (mkRequest SockClosed (Some (mkResponse [short_reply] true)) 7
                  [[Byte.x47]; CRLF] [5],
        Return (Some (mkResponse [short_reply] true))).
Proof.
  split; [vm_compute; reflexivity |].
  split; [vm_compute; discriminate |].
  split; [reflexivity |].
  split; [reflexivity |].
  vm_compute. reflexivity.
Qed.

Lemma send_records_last_error_witness :
  exists st',
    send (P := mbed) 1 (handshake_env (-29184)) [] fresh
    = (st', Return None)
    /\ get_error st'
       = if not_want (P := mbed)
                     (mbedtls_ssl_handshake (handshake_env (-29184)))
         then -1
         else mbedtls_ssl_handshake (handshake_env (-29184)).
Proof.
  destruct (@send_records_last_error mbed eq_refl 1%nat
              (handshake_env (-29184)) [] fresh)
    as (_ & _ & _ & _ & _ & _ & Hhandshake & _).
  apply Hhandshake.
  - repeat split.
  - reflexivity.
Defined.
